(** * Shallow embedding of the PyTorch notebooks of getting-started-with-gpus

    The two PyTorch notebooks [torch-use-gpu.ipynb] (training, saving) and
    [torch-test-model.ipynb] (loading, inference) are modelled here as
    programs in a state-and-exception monad.  The framework itself (tensor
    arithmetic, autograd, the Adadelta update, random initialisation, the
    dataset download) is not code of this repository: its numeric content is
    kept abstract behind the class [Torch], while everything the notebooks
    write themselves (device selection, the network, the training/evaluation
    loops, the epoch driver, save/load) is translated cell by cell. *)

From Stdlib Require Import List String Bool Arith Lia.
Import ListNotations.
Open Scope string_scope.

(** ** Devices *)

Inductive device := CPU | CUDA (index : nat).

Definition device_eqb (a b : device) : bool :=
  match a, b with
  | CPU, CPU => true
  | CUDA i, CUDA j => Nat.eqb i j
  | _, _ => false
  end.

Lemma device_eqb_eq a b : device_eqb a b = true <-> a = b.
Proof.
  destruct a, b; simpl; split; intro H; try congruence.
  - apply Nat.eqb_eq in H; now subst.
  - inversion H; apply Nat.eqb_refl.
Qed.

(** [torch.device(s)] for the two strings the notebooks can pass. *)
Definition torch_device (s : string) : device :=
  if String.eqb s "cuda:0" then CUDA 0 else CPU.

(** [torch.cuda.is_available()] is a read of the environment. *)

(** ** Tensors: flat data, a shape and the device the storage lives on *)

Record tensor (A : Type) := mkTensor {
  tdata : list A;
  tshape : list nat;
  tdev : device
}.
Arguments mkTensor {A}.
Arguments tdata {A}.
Arguments tshape {A}.
Arguments tdev {A}.

Definition numel (shape : list nat) : nat := fold_right Nat.mul 1 shape.

(** [t.to(d)]: same values and shape, storage on [d]. *)
Definition tensor_to {A} (d : device) (t : tensor A) : tensor A :=
  mkTensor (tdata t) (tshape t) d.

(** Rows of a row-major matrix with [r] rows of [c] columns. *)
Fixpoint chunk {A} (r c : nat) (l : list A) : list (list A) :=
  match r with
  | 0 => []
  | S r' => firstn c l :: chunk r' c (skipn c l)
  end.

(** ** Exceptions raised by the framework *)

Inductive exn :=
  | FileNotFoundError (path : string)
  | DatasetNotFound (root : string)
  | NoCudaRuntimeError          (* "Torch not compiled with CUDA" / no device *)
  | CudaDeserializeError        (* torch.load of CUDA storages without CUDA *)
  | DeviceMismatchError
  | ShapeMismatchError
  | IndexError
  | BackwardNoGradError         (* backward() on a tensor without grad_fn *)
  | StateDictKeyError
  | UnpicklingError
  | ValueError
  | ZeroDivisionError.

Inductive result (A : Type) := Ok (a : A) | Err (e : exn).
Arguments Ok {A}.
Arguments Err {A}.

(** ** Numbers and the framework's numeric kernels *)

Class Torch (R : Type) := {
  r0 : R;
  radd : R -> R -> R;
  rmul : R -> R -> R;
  rdiv : R -> R -> R;
  ropp : R -> R;
  rexp : R -> R;
  rltb : R -> R -> bool;
  r_of_nat : nat -> R;
  (** [r_dec m k] is the literal [m * 10^-k] *)
  r_dec : nat -> nat -> R;
  (** random values drawn by nn.Linear's initialiser: fan-in, count, draw *)
  init_uniform : nat -> nat -> nat -> list R;
  (** per-parameter Adadelta state and update (lr, state, value, grad) *)
  OptParamState : Type;
  adadelta_init : R -> list R -> OptParamState;
  adadelta_update : OptParamState -> list R -> list R -> OptParamState * list R;
  (** the transformed FashionMNIST samples (image [1;28;28], label) of a split *)
  fashion_mnist : bool -> list (tensor R * nat)
}.

Definition rbind {A B} (m : result A) (k : A -> result B) : result B :=
  match m with Ok a => k a | Err e => Err e end.
Notation "x <-? m ;; k" := (rbind m (fun x => k))
  (at level 61, m at next level, right associativity).

(** ** The network [SimpleNet] (cell 21 of torch-use-gpu, cell 8 of
    torch-test-model; the two class definitions are identical) *)

Section Model.
Context {R : Type} `{Torch R}.

(** [nn.Linear]: its attributes and its two parameters. *)
Record Linear := mkLinear {
  in_features : nat;
  out_features : nat;
  weight : tensor R;
  bias : tensor R
}.

Record SimpleNet := mkSimpleNet {
  fc1 : Linear;
  fc2 : Linear;
  training : bool
}.

(** [nn.Linear(i, o)]: weight of shape [o; i], bias of shape [o], on the
    CPU, drawn by the framework's initialiser. *)
Definition nn_Linear (i o draw : nat) : Linear :=
  mkLinear i o (mkTensor (init_uniform i (o * i) draw) [o; i] CPU)
               (mkTensor (init_uniform i o (S draw)) [o] CPU).

(** [SimpleNet()]:  fc1 = nn.Linear(784, 784); fc2 = nn.Linear(784, 10). *)
Definition SimpleNet_init : SimpleNet :=
  mkSimpleNet (nn_Linear 784 784 0) (nn_Linear 784 10 2) true.

(** [model.parameters()] in registration order. *)
Definition parameters (m : SimpleNet) : list (tensor R) :=
  [weight (fc1 m); bias (fc1 m); weight (fc2 m); bias (fc2 m)].

(** [module.to(d)] moves every parameter to [d] (in place). *)
Definition linear_to (d : device) (l : Linear) : Linear :=
  mkLinear (in_features l) (out_features l)
           (tensor_to d (weight l)) (tensor_to d (bias l)).

Definition net_to (d : device) (m : SimpleNet) : SimpleNet :=
  mkSimpleNet (linear_to d (fc1 m)) (linear_to d (fc2 m)) (training m).

(** [model.train()] / [model.eval()] only set the mode flag. *)
Definition net_train (m : SimpleNet) : SimpleNet :=
  mkSimpleNet (fc1 m) (fc2 m) true.
Definition net_eval (m : SimpleNet) : SimpleNet :=
  mkSimpleNet (fc1 m) (fc2 m) false.

(** *** The tensor kernels used by [forward] *)

(** [x.view(bs, -1)] *)
Definition view (bs : nat) (x : tensor R) : result (tensor R) :=
  let n := numel (tshape x) in
  if Nat.eqb bs 0 then Err ShapeMismatchError
  else if negb (Nat.eqb (n mod bs) 0) then Err ShapeMismatchError
  else Ok (mkTensor (tdata x) [bs; n / bs] (tdev x)).

Definition dot (w x : list R) : R :=
  fold_right radd r0 (map (fun p => rmul (fst p) (snd p)) (combine w x)).

(** [F.linear(x, weight, bias)] on a 2-d input (the only rank [forward]
    produces): all operands on one device, inner dimensions equal. *)
Definition linear (l : Linear) (x : tensor R) : result (tensor R) :=
  let w := weight l in
  let b := bias l in
  if negb (device_eqb (tdev x) (tdev w) && device_eqb (tdev x) (tdev b))
  then Err DeviceMismatchError
  else match tshape w, tshape x with
       | [o; i], [n; k] =>
           if negb (Nat.eqb k i) then Err ShapeMismatchError
           else
             let wrows := chunk o i (tdata w) in
             Ok (mkTensor
                   (flat_map (fun row =>
                      map (fun p => radd (fst p) (dot (snd p) row))
                          (combine (tdata b) wrows))
                      (chunk n k (tdata x)))
                   [n; o] (tdev x))
       | _, _ => Err ShapeMismatchError
       end.

(** [F.relu] *)
Definition relu (x : tensor R) : tensor R :=
  mkTensor (map (fun v => if rltb r0 v then v else r0) (tdata x))
           (tshape x) (tdev x).

Definition softmax_row (r : list R) : list R :=
  let e := map rexp r in
  let s := fold_right radd r0 e in
  map (fun v => rdiv v s) e.

(** [F.softmax(x, dim=1)] on a 2-d tensor. *)
Definition softmax1 (x : tensor R) : result (tensor R) :=
  match tshape x with
  | [n; k] => Ok (mkTensor (flat_map softmax_row (chunk n k (tdata x)))
                           [n; k] (tdev x))
  | _ => Err IndexError
  end.

(** [SimpleNet.forward]; [bs] is the notebook's global [batch_size]. *)
Definition forward (bs : nat) (m : SimpleNet) (x : tensor R)
  : result (tensor R) :=
  x1 <-? view bs x ;;
  x2 <-? linear (fc1 m) x1 ;;
  let x3 := relu x2 in
  x4 <-? linear (fc2 m) x3 ;;
  softmax1 x4.

End Model.

(** Autograd: the gradient of the mean NLL loss of [forward bs m x] against
    the targets, one list per parameter of [parameters m]. *)
Class Autograd (R : Type) := {
  nll_grad : nat -> SimpleNet (R := R) -> tensor R -> tensor nat -> list (list R)
}.

(** ** Interpreter state and the effect monad *)

Section Runtime.
Context {R : Type} `{Torch R} `{Autograd R}.

Inductive file :=
  | FWeights (sd : list (string * tensor R))
  | FDataset (samples : list (tensor R * nat)).

(** What a [print] shows. *)
Inductive printed :=
  | PDevice (d : device)
  | PTensorInfo (is_cuda : bool) (d : device)
  | PEpoch (epoch : nat)
  | PTestReport (avg_loss : R) (correct total : nat).

(** The trace of framework calls a run makes. *)
Inductive event :=
  | EvPrint (p : printed)
  | EvTrainMode
  | EvEvalMode
  | EvTo (d : device)
  | EvZeroGrad
  | EvForward (xdev : device) (pdevs : list device) (grad_on : bool)
  | EvNllLoss (odev tdev : device) (grad_on : bool)
  | EvBackward
  | EvStep
  | EvNoGrad (grad_on_after : bool)
  | EvSave (path : string)
  | EvLoad (path : string).

Record St := mkSt {
  fs : list (string * file);
  cuda_avail : bool;
  net : SimpleNet (R := R);
  grads : option (list (list R));
  opt : list OptParamState;
  grad_enabled : bool;
  log : list event
}.

Definition M (A : Type) := St -> result (A * St).

Definition ret {A} (a : A) : M A := fun s => Ok (a, s).
Definition bind {A B} (m : M A) (k : A -> M B) : M B :=
  fun s => match m s with Ok (a, s') => k a s' | Err e => Err e end.
Definition raise {A} (e : exn) : M A := fun _ => Err e.
Definition get : M St := fun s => Ok (s, s).
Definition put (s : St) : M unit := fun _ => Ok (tt, s).

End Runtime.

Notation "x <- m ;; k" := (bind m (fun x => k))
  (at level 61, m at next level, right associativity).
Notation "m ;;; k" := (bind m (fun _ => k))
  (at level 61, right associativity).

Section Ops.
Context {R : Type} `{Torch R} `{Autograd R}.

Definition set_net (m : SimpleNet) : M unit :=
  fun s => Ok (tt, mkSt (fs s) (cuda_avail s) m (grads s) (opt s)
                        (grad_enabled s) (log s)).
Definition set_grads (g : option (list (list R))) : M unit :=
  fun s => Ok (tt, mkSt (fs s) (cuda_avail s) (net s) g (opt s)
                        (grad_enabled s) (log s)).
Definition set_opt (o : list OptParamState) : M unit :=
  fun s => Ok (tt, mkSt (fs s) (cuda_avail s) (net s) (grads s) o
                        (grad_enabled s) (log s)).
Definition set_grad_enabled (b : bool) : M unit :=
  fun s => Ok (tt, mkSt (fs s) (cuda_avail s) (net s) (grads s) (opt s)
                        b (log s)).
Definition set_fs (f : list (string * file)) : M unit :=
  fun s => Ok (tt, mkSt f (cuda_avail s) (net s) (grads s) (opt s)
                        (grad_enabled s) (log s)).
Definition emit (e : event) : M unit :=
  fun s => Ok (tt, mkSt (fs s) (cuda_avail s) (net s) (grads s) (opt s)
                        (grad_enabled s) (log s ++ [e])).

Definition is_cuda (d : device) : bool :=
  match d with CUDA _ => true | CPU => false end.

(** Any CUDA placement needs an accelerator. *)
Definition require_device (d : device) : M unit :=
  s <- get ;;
  if is_cuda d && negb (cuda_avail s) then raise NoCudaRuntimeError
  else ret tt.

(** [t.to(d)] *)
Definition to_device {A} (d : device) (t : tensor A) : M (tensor A) :=
  require_device d ;;; emit (EvTo d) ;;; ret (tensor_to d t).

(** [model.to(d)], in place on the notebook's model object. *)
Definition model_to (d : device) : M unit :=
  require_device d ;;; s <- get ;; set_net (net_to d (net s)).

(** [with torch.no_grad(): body] *)
Definition with_no_grad {A} (body : M A) : M A :=
  s <- get ;;
  let old := grad_enabled s in
  set_grad_enabled false ;;; emit (EvNoGrad false) ;;;
  r <- body ;;
  set_grad_enabled old ;;; emit (EvNoGrad old) ;;; ret r.

(** A forward result with the autograd graph it carries (when grad mode is
    on): batch size, the model and the input it was applied to. *)
Definition graph := option (nat * SimpleNet (R := R) * tensor R).

(** [model(x)] *)
Definition call_model (bs : nat) (x : tensor R) : M (tensor R * graph) :=
  s <- get ;;
  emit (EvForward (tdev x) (map tdev (parameters (net s))) (grad_enabled s)) ;;;
  match forward bs (net s) x with
  | Ok y => ret (y, if grad_enabled s then Some (bs, net s, x) else None)
  | Err e => raise e
  end.

Record loss := mkLoss {
  lval : R;
  lgraph : option (nat * SimpleNet (R := R) * tensor R * tensor nat)
}.

Definition sumR (l : list R) : R := fold_right radd r0 l.

(** [F.nll_loss(output, target, reduction='sum')] as a number. *)
Definition nll_sum (o : tensor R) (t : tensor nat) : result R :=
  if negb (device_eqb (tdev o) (tdev t)) then Err DeviceMismatchError
  else match tshape o, tshape t with
       | [n; c], [n'] =>
           if negb (Nat.eqb n n' && Nat.eqb (List.length (tdata t)) n) then
             Err ShapeMismatchError
           else if negb (forallb (fun y => Nat.ltb y c) (tdata t)) then
             Err IndexError
           else Ok (ropp (sumR (map (fun p => nth (snd p) (fst p) r0)
                                    (combine (chunk n c (tdata o)) (tdata t)))))
       | _, _ => Err ShapeMismatchError
       end.

(** [F.nll_loss(output, target)] (mean) or with [reduction='sum'];
    the loss keeps the graph of its input. *)
Definition nll_loss (mean : bool) (og : tensor R * graph) (t : tensor nat)
  : M loss :=
  let (o, g) := og in
  s <- get ;;
  emit (EvNllLoss (tdev o) (tdev t) (grad_enabled s)) ;;;
  match nll_sum o t with
  | Err e => raise e
  | Ok v =>
      let n := match tshape o with n :: _ => n | [] => 0 end in
      ret (mkLoss (if mean then rdiv v (r_of_nat n) else v)
                  (match g with
                   | Some (bs, m, x) => Some (bs, m, x, t)
                   | None => None
                   end))
  end.
End Ops.

(** ** Autograd and the optimizer *)

Section Training.
Context {R : Type} `{Torch R} `{Autograd R}.

Definition add_lists (a b : list (list R)) : list (list R) :=
  map (fun p => map (fun q => radd (fst q) (snd q)) (combine (fst p) (snd p)))
      (combine a b).

(** [loss.backward()]: accumulate the gradient into [.grad]. *)
Definition backward (l : loss (R := R)) : M unit :=
  emit EvBackward ;;;
  match lgraph l with
  | None => raise BackwardNoGradError
  | Some (bs, m, x, t) =>
      s <- get ;;
      let g := nll_grad bs m x t in
      set_grads (Some (match grads s with
                       | None => g
                       | Some g0 => add_lists g0 g
                       end))
  end.

(** [optimizer.zero_grad()] (set_to_none, the default). *)
Definition zero_grad : M unit := emit EvZeroGrad ;;; set_grads None.

Fixpoint step_all (os : list OptParamState) (ps gs : list (list R))
  : list OptParamState * list (list R) :=
  match os, ps, gs with
  | o :: os', p :: ps', g :: gs' =>
      let (o', p') := adadelta_update o p g in
      let (os'', ps'') := step_all os' ps' gs' in
      (o' :: os'', p' :: ps'')
  | _, _, _ => ([], [])
  end.

(** An in-place update of a parameter's values. *)
Definition with_data (t : tensor R) (d : list R) : tensor R :=
  mkTensor d (tshape t) (tdev t).

Definition set_params_data (m : SimpleNet) (ds : list (list R)) : SimpleNet :=
  let l1 := fc1 m in
  let l2 := fc2 m in
  mkSimpleNet
    (mkLinear (in_features l1) (out_features l1)
       (with_data (weight l1) (nth 0 ds (tdata (weight l1))))
       (with_data (bias l1) (nth 1 ds (tdata (bias l1)))))
    (mkLinear (in_features l2) (out_features l2)
       (with_data (weight l2) (nth 2 ds (tdata (weight l2))))
       (with_data (bias l2) (nth 3 ds (tdata (bias l2)))))
    (training m).

(** [optimizer.step()] for [optim.Adadelta(model.parameters(), lr=0.01)]. *)
Definition step : M unit :=
  emit EvStep ;;;
  s <- get ;;
  match grads s with
  | None => ret tt
  | Some gs =>
      let r := step_all (opt s) (map tdata (parameters (net s))) gs in
      set_opt (fst r) ;;; set_net (set_params_data (net s) (snd r))
  end.

Definition adadelta (lr : R) : M unit :=
  s <- get ;;
  set_opt (map (fun p => adadelta_init lr (tdata p)) (parameters (net s))).

(** ** Data sets and loaders *)

Record loader := mkLoader {
  batches : list (tensor R * tensor nat);
  dataset_len : nat
}.

(** The default collate function: stack images and labels (on the CPU). *)
Definition collate (xs : list (tensor R * nat)) : tensor R * tensor nat :=
  let shp := match xs with (img, _) :: _ => tshape img | [] => [] end in
  (mkTensor (flat_map (fun p => tdata (fst p)) xs) (List.length xs :: shp) CPU,
   mkTensor (map snd xs) [List.length xs] CPU).

Fixpoint batches_of (fuel bs : nat) (xs : list (tensor R * nat))
  : list (tensor R * tensor nat) :=
  match fuel with
  | 0 => []
  | S f =>
      match xs with
      | [] => []
      | _ => collate (firstn bs xs) :: batches_of f bs (skipn bs xs)
      end
  end.

(** [DataLoader(ds, batch_size=bs, shuffle=False)] *)
Definition DataLoader (ds : list (tensor R * nat)) (bs : nat) : M loader :=
  if Nat.eqb bs 0 then raise ValueError
  else ret (mkLoader (batches_of (List.length ds) bs ds) (List.length ds)).

Fixpoint assoc {A} (k : string) (l : list (string * A)) : option A :=
  match l with
  | [] => None
  | (k', v) :: l' => if String.eqb k k' then Some v else assoc k l'
  end.

Definition fs_write (k : string) (v : file (R := R)) (l : list (string * file))
  : list (string * file) :=
  (k, v) :: filter (fun p => negb (String.eqb k (fst p))) l.

Definition split_key (root : string) (train : bool) : string :=
  root ++ "/FashionMNIST/" ++ (if train then "train" else "test").

(** [datasets.FashionMNIST(root, train=.., download=..)]; a download
    fetches both splits. *)
Definition FashionMNIST (root : string) (train download : bool)
  : M (list (tensor R * nat)) :=
  s <- get ;;
  match assoc (split_key root train) (fs s) with
  | Some (FDataset d) => ret d
  | _ =>
      if download then
        set_fs (fs_write (split_key root true) (FDataset (fashion_mnist true))
                 (fs_write (split_key root false) (FDataset (fashion_mnist false))
                   (fs s))) ;;;
        ret (fashion_mnist train)
      else raise (DatasetNotFound root)
  end.

End Training.

(** ** The training and evaluation functions of torch-use-gpu.ipynb *)

Section Loops.
Context {R : Type} `{Torch R} `{Autograd R}.

Fixpoint for_each {A} (l : list A) (body : A -> M unit) : M unit :=
  match l with
  | [] => ret tt
  | x :: l' => body x ;;; for_each l' body
  end.

Fixpoint fold_batches {A B} (l : list A) (acc : B) (body : B -> A -> M B)
  : M B :=
  match l with
  | [] => ret acc
  | x :: l' => acc' <- body acc x ;; fold_batches l' acc' body
  end.

(** [model.train()] / [model.eval()] *)
Definition model_train : M unit :=
  s <- get ;; set_net (net_train (net s)) ;;; emit EvTrainMode.
Definition model_eval : M unit :=
  s <- get ;; set_net (net_eval (net s)) ;;; emit EvEvalMode.

(** One iteration of the loop of [train]. *)
Definition train_step (bs : nat) (dev : device) (b : tensor R * tensor nat)
  : M unit :=
  let (data0, target0) := b in
  data <- to_device dev data0 ;;
  target <- to_device dev target0 ;;
  zero_grad ;;;
  output <- call_model bs data ;;
  l <- nll_loss true output target ;;
  backward l ;;;
  step.

(** [def train(model, device, train_loader, optimizer, epoch)] (cell 30);
    [bs] is the global [batch_size] read by [forward]. *)
Definition train (bs : nat) (dev : device) (train_loader : loader)
  (epoch : nat) : M unit :=
  model_train ;;;
  emit (EvPrint (PDevice dev)) ;;;
  for_each (batches train_loader) (train_step bs dev).

(** The row-wise [argmax(dim=1)]: first index of a maximum. *)
Fixpoint argmax_from (i best : nat) (bv : R) (r : list R) : nat :=
  match r with
  | [] => best
  | v :: r' => if rltb bv v then argmax_from (S i) i v r'
               else argmax_from (S i) best bv r'
  end.
Definition argmax_row (r : list R) : nat :=
  match r with [] => 0 | v :: r' => argmax_from 1 0 v r' end.

Definition argmax1 (o : tensor R) : list nat :=
  match tshape o with
  | [n; c] => map argmax_row (chunk n c (tdata o))
  | _ => []
  end.

(** [pred.eq(target.view_as(pred)).sum()] *)
Definition count_eq (p t : list nat) : nat :=
  List.length (filter (fun q => Nat.eqb (fst q) (snd q)) (combine p t)).

(** Loop body of the first [test] (cell 31). *)
Definition test_v1_step (bs : nat) (dev : device) (acc : R * nat)
  (b : tensor R * tensor nat) : M (R * nat) :=
  let (data0, target0) := b in
  data <- to_device dev data0 ;;
  target <- to_device dev target0 ;;
  output <- call_model bs data ;;
  l <- nll_loss false output target ;;
  let pred := argmax1 (fst output) in
  ret (radd (fst acc) (lval l), snd acc + count_eq pred (tdata target)).

(** [def test(model, device, test_loader)], first definition (cell 31). *)
Definition test_v1 (bs : nat) (dev : device) (test_loader : loader) : M unit :=
  model_eval ;;;
  acc <- with_no_grad
           (fold_batches (batches test_loader) (r0, 0) (test_v1_step bs dev)) ;;
  let n := dataset_len test_loader in
  if Nat.eqb n 0 then raise ZeroDivisionError
  else emit (EvPrint (PTestReport (rdiv (fst acc) (r_of_nat n)) (snd acc) n)).

(** Loop body of the second [test] (cell 32). *)
Definition test_step (bs : nat) (dev : device) (acc : R * nat)
  (b : tensor R * tensor nat) : M (R * nat) :=
  let (data0, target0) := b in
  data <- to_device dev data0 ;;
  target <- to_device dev target0 ;;
  output <- call_model bs data ;;
  l <- nll_loss false output target ;;
  let pred := argmax1 (fst output) in
  ret (radd (fst acc) (lval l), snd acc + count_eq pred (tdata target)).

(** [def test(model, device, test_loader)], second definition (cell 32),
    which shadows the first. *)
Definition test (bs : nat) (dev : device) (test_loader : loader) : M unit :=
  model_eval ;;;
  acc <- with_no_grad
           (fold_batches (batches test_loader) (r0, 0) (test_step bs dev)) ;;
  let n := dataset_len test_loader in
  if Nat.eqb n 0 then raise ZeroDivisionError
  else emit (EvPrint (PTestReport (rdiv (fst acc) (r_of_nat n)) (snd acc) n)).

Definition EPOCHS : nat := 5.

(** [for epoch in range(1, EPOCHS + 1)] (cell 34). *)
Definition epoch_loop (bs : nat) (dev : device) (train_loader test_loader : loader)
  : M unit :=
  for_each (seq 1 EPOCHS) (fun epoch =>
    emit (EvPrint (PEpoch epoch)) ;;;
    train bs dev train_loader epoch ;;;
    test bs dev test_loader).

End Loops.

(** ** Serialisation of the weights and the two notebooks *)

Section Notebooks.
Context {R : Type} `{Torch R} `{Autograd R}.

Definition weights_path : string := "mnist_fashion_SimpleNet.pt".

(** [model.state_dict()] *)
Definition state_dict (m : SimpleNet (R := R)) : list (string * tensor R) :=
  [("fc1.weight", weight (fc1 m)); ("fc1.bias", bias (fc1 m));
   ("fc2.weight", weight (fc2 m)); ("fc2.bias", bias (fc2 m))].

Definition sd_keys : list string :=
  ["fc1.weight"; "fc1.bias"; "fc2.weight"; "fc2.bias"].

(** [torch.save(obj, path)] *)
Definition torch_save (sd : list (string * tensor R)) (path : string) : M unit :=
  s <- get ;; set_fs (fs_write path (FWeights sd) (fs s)) ;;; emit (EvSave path).

(** [torch.load(path)] (no map_location: storages return to their saved
    device). *)
Definition torch_load (path : string) : M (list (string * tensor R)) :=
  s <- get ;;
  emit (EvLoad path) ;;;
  match assoc path (fs s) with
  | None => raise (FileNotFoundError path)
  | Some (FDataset _) => raise UnpicklingError
  | Some (FWeights sd) =>
      if existsb (fun p => is_cuda (tdev (snd p))) sd && negb (cuda_avail s)
      then raise CudaDeserializeError
      else ret sd
  end.

(** [param.copy_(input)] after the size check. *)
Definition copy_param (p : tensor R) (src : option (tensor R)) : result (tensor R) :=
  match src with
  | None => Err StateDictKeyError
  | Some t =>
      if list_eq_dec Nat.eq_dec (tshape t) (tshape p) then Ok (with_data p (tdata t))
      else Err ShapeMismatchError
  end.

(** [model.load_state_dict(sd)] (strict): no missing, no unexpected key. *)
Definition load_state_dict_pure (m : SimpleNet (R := R)) (sd : list (string * tensor R))
  : result SimpleNet :=
  if negb (forallb (fun p => existsb (String.eqb (fst p)) sd_keys) sd)
  then Err StateDictKeyError
  else
    w1 <-? copy_param (weight (fc1 m)) (assoc "fc1.weight" sd) ;;
    b1 <-? copy_param (bias (fc1 m)) (assoc "fc1.bias" sd) ;;
    w2 <-? copy_param (weight (fc2 m)) (assoc "fc2.weight" sd) ;;
    b2 <-? copy_param (bias (fc2 m)) (assoc "fc2.bias" sd) ;;
    Ok (mkSimpleNet
          (mkLinear (in_features (fc1 m)) (out_features (fc1 m)) w1 b1)
          (mkLinear (in_features (fc2 m)) (out_features (fc2 m)) w2 b2)
          (training m)).

Definition load_state_dict (sd : list (string * tensor R)) : M unit :=
  s <- get ;;
  match load_state_dict_pure (net s) sd with
  | Ok m => set_net m
  | Err e => raise e
  end.

(** [device = torch.device("cuda:0" if torch.cuda.is_available() else "cpu")] *)
Definition device_string (cuda_is_available : bool) : string :=
  if cuda_is_available then "cuda:0" else "cpu".

Definition select_device : M device :=
  s <- get ;;
  let d := torch_device (device_string (cuda_avail s)) in
  emit (EvPrint (PDevice d)) ;;; ret d.

(** [torch.cuda.get_device_name(0)] *)
Definition get_device_name0 : M unit :=
  s <- get ;; if cuda_avail s then ret tt else raise NoCudaRuntimeError.

(** [t.cuda()] *)
Definition tensor_cuda {A} (t : tensor A) : M (tensor A) :=
  s <- get ;;
  if cuda_avail s then ret (tensor_to (CUDA 0) t) else raise NoCudaRuntimeError.

(** [torch.cuda.IntTensor(xs, device=d)] *)
Definition cuda_IntTensor (xs : list nat) (d : device) : M (tensor nat) :=
  s <- get ;;
  if cuda_avail s && is_cuda d then ret (mkTensor xs [List.length xs] d)
  else raise NoCudaRuntimeError.

(** [x.squeeze()] *)
Definition squeeze (t : tensor R) : tensor R :=
  mkTensor (tdata t) (filter (fun n => negb (Nat.eqb n 1)) (tshape t)) (tdev t).

(** [out[y]] for an integer index tensor [y]. *)
Definition index (o : tensor R) (y : tensor nat) : result (tensor R) :=
  match tshape o with
  | [] => Err IndexError
  | d0 :: rest =>
      if negb (device_eqb (tdev y) (tdev o) || negb (is_cuda (tdev y)))
      then Err DeviceMismatchError
      else if negb (forallb (fun i => Nat.ltb i d0) (tdata y)) then Err IndexError
      else
        let rows := chunk d0 (numel rest) (tdata o) in
        Ok (mkTensor (flat_map (fun i => nth i rows []) (tdata y))
                     (tshape y ++ rest) (tdev o))
  end.

(** [def get_probs(model, x, y, device)] (torch-test-model, cell 13);
    the notebook's [batch_size] is 1. *)
Definition get_probs (x0 : tensor R) (y0 : tensor nat) (dev : device)
  : M (tensor R * tensor R) :=
  model_to dev ;;;
  x <- to_device dev x0 ;;
  y <- to_device dev y0 ;;
  output <- with_no_grad (o <- call_model 1 x ;; ret (squeeze (fst o))) ;;
  match index output y with
  | Ok g => ret (output, g)
  | Err e => raise e
  end.

End Notebooks.

(** *** torch-use-gpu.ipynb, cell by cell.  Cells that only display
    ([!nvidia-smi], [is_available()], [device_count()]) or plot (cell 28)
    leave the interpreter state unchanged and are omitted. *)

Section Programs.
Context {R : Type} `{Torch R} `{Autograd R}.

(** Cells 11 to 18: the device, the device name and the tensor demos. *)
Definition nb1_devices : M device :=
  dev <- select_device ;;
  get_device_name0 ;;;
  let X_train := mkTensor [0; 30; 50; 75; 70] [5] CPU in
  emit (EvPrint (PTensorInfo (is_cuda (tdev X_train)) (tdev X_train))) ;;;
  X_train' <- tensor_cuda X_train ;;
  emit (EvPrint (PTensorInfo (is_cuda (tdev X_train')) (tdev X_train'))) ;;;
  X_test <- cuda_IntTensor [30; 40; 50] dev ;;
  emit (EvPrint (PTensorInfo (is_cuda (tdev X_test)) (tdev X_test))) ;;;
  ret dev.

Definition batch_size1 : nat := 100.

(** Cells 23 and 26: [model = SimpleNet().to(device)] and the loaders. *)
Definition nb1_model_and_data (dev : device) : M (loader * loader) :=
  set_net SimpleNet_init ;;; model_to dev ;;;
  trainset <- FashionMNIST "./data" true true ;;
  train_loader <- DataLoader trainset batch_size1 ;;
  testset <- FashionMNIST "./data" false false ;;
  test_loader <- DataLoader testset batch_size1 ;;
  ret (train_loader, test_loader).

(** Cell 37: [torch.save(model.state_dict(), "mnist_fashion_SimpleNet.pt")] *)
Definition nb1_save : M unit :=
  s <- get ;; torch_save (state_dict (net s)) weights_path.

Definition torch_use_gpu : M unit :=
  dev <- nb1_devices ;;
  loaders <- nb1_model_and_data dev ;;
  adadelta (r_dec 1 2) ;;;
  epoch_loop batch_size1 dev (fst loaders) (snd loaders) ;;;
  nb1_save.

(** *** torch-test-model.ipynb, cells 6 to 12 (cell 15 is run by hand
    and calls [get_probs]). *)

Definition batch_size2 : nat := 1.

Definition torch_test_model : M loader :=
  dev <- select_device ;;
  set_net SimpleNet_init ;;; model_to dev ;;;
  sd <- torch_load weights_path ;;
  load_state_dict sd ;;;
  model_eval ;;;
  testset <- FashionMNIST "./data" false false ;;
  DataLoader testset batch_size2.

(** A fresh kernel on a notebook server: its files and its accelerator;
    the model slot is filled by the notebook's [model = ...] cell. *)
Definition fresh_kernel (files : list (string * file)) (cuda : bool) : St :=
  mkSt files cuda SimpleNet_init None [] true [].

End Programs.

(** *** The cells that read single samples: the figure cell of
    torch-use-gpu (cell 28) and the prediction cell of torch-test-model
    (cell 15), with the [labels_map] dictionary both define. *)

Section Cells.
Context {R : Type} `{Torch R} `{Autograd R}.

(** [labels_map = {0: "T-Shirt", ..., 9: "Ankle Boot"}] *)
Definition labels_map : list (nat * string) :=
  [(0, "T-Shirt"); (1, "Trouser"); (2, "Pullover"); (3, "Dress"); (4, "Coat");
   (5, "Sandal"); (6, "Shirt"); (7, "Sneaker"); (8, "Bag"); (9, "Ankle Boot")].

(** [d[k]] on a dictionary with integer keys ([None]: no such key). *)
Fixpoint dict_get (k : nat) (d : list (nat * string)) : option string :=
  match d with
  | [] => None
  | (k', v) :: d' => if Nat.eqb k k' then Some v else dict_get k d'
  end.

(** Errors of a cell: the framework's, [KeyError] of a dictionary lookup,
    [StopIteration] of [next] on an exhausted iterator. *)
Inductive cell_exn :=
  | TorchExn (e : exn)
  | KeyError (k : nat)
  | StopIteration.

Inductive cresult (A : Type) := COk (a : A) | CErr (e : cell_exn).
Arguments COk {A}.
Arguments CErr {A}.

Definition lift {A} (r : result A) : cresult A :=
  match r with Ok a => COk a | Err e => CErr (TorchExn e) end.

Definition cbind {A B} (m : cresult A) (k : A -> cresult B) : cresult B :=
  match m with COk a => k a | CErr e => CErr e end.

(** [x.squeeze(0)]: drop the first dimension when it has size 1. *)
Definition squeeze0 {A} (t : tensor A) : tensor A :=
  match tshape t with
  | 1 :: rest => mkTensor (tdata t) rest (tdev t)
  | _ => t
  end.

(** [x.view(d1, ..., dk)] with explicit sizes. *)
Definition view_dims {A} (sh : list nat) (t : tensor A) : result (tensor A) :=
  if Nat.eqb (numel (tshape t)) (numel sh) then Ok (mkTensor (tdata t) sh (tdev t))
  else Err ShapeMismatchError.

(** [t[i]] for a Python integer [i]. *)
Definition int_index {A} (t : tensor A) (i : nat) : result (tensor A) :=
  match tshape t with
  | [] => Err IndexError
  | d0 :: rest =>
      if Nat.ltb i d0 then Ok (mkTensor (nth i (chunk d0 (numel rest) (tdata t)) []) rest (tdev t))
      else Err IndexError
  end.

(** [t.item()]: the value of a one-element tensor. *)
Definition item {A} (t : tensor A) : result A :=
  if Nat.eqb (numel (tshape t)) 1 then
    match tdata t with v :: _ => Ok v | [] => Err ShapeMismatchError end
  else Err ShapeMismatchError.

(** The loop of the figure cell; [sample_idx] are the nine values drawn by
    [torch.randint(len(trainset), size=(1,)).item()]. *)
Fixpoint plot_samples (trainset : list (tensor R * nat)) (sample_idx : list nat)
  : cresult (list string) :=
  match sample_idx with
  | [] => COk []
  | idx :: idxs =>
      match nth_error trainset idx with
      | None => CErr (TorchExn IndexError)
      | Some (img, label) =>
          match dict_get label labels_map with
          | None => CErr (KeyError label)
          | Some title =>
              cbind (lift (view_dims [28; 28] img)) (fun _ =>
              cbind (plot_samples trainset idxs) (fun titles =>
              COk (title :: titles)))
          end
      end
  end.

(** What cell 15 prints. *)
Record prediction := mkPrediction {
  image_shape : list nat;
  predicted : string;
  confidence : R;
  correct_label : string
}.

(** Cell 15 of torch-test-model: one sample from [testing_iterator] (its
    [next] call), its prediction and the names of the predicted and the
    true class; the iterator is left on the remaining batches. *)
Definition cell15 (testing_iterator : list (tensor R * tensor nat)) (dev : device)
  (s : St) : cresult (prediction * list (tensor R * tensor nat) * St) :=
  match testing_iterator with
  | [] => CErr StopIteration
  | (image0, label) :: rest =>
      let image := squeeze0 image0 in
      match get_probs image label dev s with
      | Err e => CErr (TorchExn e)
      | Ok ((probs, gt_prob), s1) =>
          cbind (lift (view_dims [28; 28] image)) (fun _ =>
          (* [torch.argmax(probs)] over the flattened tensor, then [.item()] *)
          let max_label := argmax_row (tdata probs) in
          match dict_get max_label labels_map with
          | None => CErr (KeyError max_label)
          | Some pname =>
              cbind (lift (c <-? int_index probs max_label ;; item c)) (fun conf =>
              cbind (lift (item label)) (fun y =>
              match dict_get y labels_map with
              | None => CErr (KeyError y)
              | Some cname =>
                  COk (mkPrediction (tshape image) pname conf cname, rest, s1)
              end))
          end)
      end
  end.

End Cells.

(** ** A small executable instance (values are irrelevant to the control
    flow, which depends only on shapes, devices and files) *)

Definition blank_image : tensor nat := mkTensor [] [1; 28; 28] CPU.

#[export] Instance torch_nat : Torch nat := {|
  r0 := 0; radd := Nat.add; rmul := Nat.mul; rdiv := Nat.div; ropp := fun x => x;
  rexp := S; rltb := Nat.ltb; r_of_nat := fun n => n; r_dec := fun m _ => m;
  init_uniform := fun _ _ _ => [];
  OptParamState := unit;
  adadelta_init := fun _ _ => tt;
  adadelta_update := fun o p _ => (o, p);
  fashion_mnist := fun _ => repeat (blank_image, 3) 100
|}.

#[export] Instance autograd_nat : Autograd nat := {|
  nll_grad := fun _ _ _ _ => []
|}.

(** Concrete kernels, inputs and runs on this instance. *)

Definition final_state {A} (dflt : St (R := nat)) (r : result (A * St (R := nat)))
  : St (R := nat) :=
  match r with Ok (_, s) => s | Err _ => dflt end.

Definition final_value {A} (dflt : A) (r : result (A * St (R := nat))) : A :=
  match r with Ok (a, _) => a | Err _ => dflt end.

Definition gpu_kernel : St (R := nat) := fresh_kernel [] true.
Definition cpu_kernel : St (R := nat) := fresh_kernel [] false.

(** Both FashionMNIST splits of this instance in loaders of [batch_size1]. *)
Definition demo_loader : loader (R := nat) :=
  mkLoader (batches_of 100 batch_size1 (fashion_mnist false)) 100.

Definition nb1_final : St (R := nat) := final_state gpu_kernel (torch_use_gpu gpu_kernel).

(** The files of a server reduced to the weights file. *)
Definition only_weights (files : list (string * file (R := nat))) :=
  filter (fun p => String.eqb (fst p) weights_path) files.

Definition label3 : tensor nat := mkTensor [3] [1] CPU.
Definition bad_image : tensor nat := mkTensor [] [1; 28; 27] CPU.

Definition probs_run := get_probs blank_image label3 CPU cpu_kernel.
Definition probs_p : tensor nat := fst (final_value (blank_image, blank_image) probs_run).
Definition probs_g : tensor nat := snd (final_value (blank_image, blank_image) probs_run).
Definition probs_s : St (R := nat) := final_state cpu_kernel probs_run.

Definition train_run := train batch_size1 CPU demo_loader 1 cpu_kernel.
Definition test_run := test batch_size1 CPU demo_loader cpu_kernel.

(** The training split in loaders of 30: three full batches and a last one of 10. *)
Definition demo_loader30 : loader (R := nat) :=
  mkLoader (batches_of 100 30 (fashion_mnist false)) 100.

Definition demo_batch : tensor nat * tensor nat := nth 0 (batches demo_loader) (blank_image, label3).
Definition step_run := train_step batch_size1 CPU (fst demo_batch, snd demo_batch) cpu_kernel.

Definition forward_out : tensor nat :=
  match forward 1 (net cpu_kernel) blank_image with Ok y => y | Err _ => blank_image end.

Definition save_run := torch_save (state_dict (net cpu_kernel)) weights_path cpu_kernel.

(** A batch of [testing_iterator]: one image of shape [1x1x28x28]. *)
Definition test_image : tensor nat := mkTensor [] [1; 1; 28; 28] CPU.


(** * Theory *)

(** ** Properties and projections used by the theorems *)

Section Specs.
Context {R : Type} `{Torch R} `{Autograd R}.
Open Scope list_scope.

(** The seven calls of one training step, in order. *)
Definition train_events (dev : device) (pd : list device) : list (@event R) :=
  [EvTo dev; EvTo dev; EvZeroGrad; EvForward dev pd true;
   EvNllLoss dev dev true; EvBackward; EvStep].

(** The four calls of one evaluation step, with grad mode [g]. *)
Definition test_events (dev : device) (pd : list device) (g : bool) : list (@event R) :=
  [EvTo dev; EvTo dev; EvForward dev pd g; EvNllLoss dev dev g].

(** The parameter shapes of [SimpleNet()]. *)
Definition net_shapes_ok (m : SimpleNet (R := R)) : Prop :=
  map tshape (parameters m) = [[784; 784]; [784]; [10; 784]; [10]].

Definition on_dev (d : device) (m : SimpleNet (R := R)) : Prop :=
  map tdev (parameters m) = repeat d 4.

(** A batch as the loader of the notebook yields it. *)
Definition batch_ok (bs : nat) (b : tensor R * tensor nat) : Prop :=
  numel (tshape (fst b)) = bs * 784 /\ tshape (snd b) = [bs] /\
  List.length (tdata (snd b)) = bs /\
  forallb (fun y => Nat.ltb y 10) (tdata (snd b)) = true.

Definition kernel_ok (d : device) (s : St) : Prop :=
  net_shapes_ok (net s) /\ on_dev d (net s) /\
  (is_cuda d = true -> cuda_avail s = true).

(** A sample as the FashionMNIST transform yields it. *)
Definition sample_ok (p : tensor R * nat) : Prop := tshape (fst p) = [1; 28; 28] /\ snd p < 10.

(** What the epoch structure of a trace consists of: the per-epoch print,
    the start of a training pass ([model.train()]), each optimizer step,
    the start of an evaluation pass ([model.eval()]) and each forward call
    with gradients off. *)
Inductive pass_mark := MEpoch (n : nat) | MTrainPass | MTrainBatch | MTestPass | MTestBatch.

Definition mark_of (e : @event R) : list pass_mark :=
  match e with
  | EvPrint (PEpoch n) => [MEpoch n]
  | EvTrainMode => [MTrainPass]
  | EvStep => [MTrainBatch]
  | EvEvalMode => [MTestPass]
  | EvForward _ _ false => [MTestBatch]
  | _ => []
  end.

Definition marks (evs : list (@event R)) : list pass_mark := flat_map mark_of evs.

Definition epoch_marks (ntrain ntest epoch : nat) : list pass_mark :=
  MEpoch epoch :: MTrainPass :: repeat MTrainBatch ntrain ++
  MTestPass :: repeat MTestBatch ntest.

(** A forward call or a loss whose operands all sit on [dev]. *)
Definition consistent_ev (dev : device) (e : @event R) : Prop :=
  match e with
  | EvForward xd pd _ => xd = dev /\ pd = repeat dev 4
  | EvNllLoss od td _ => od = dev /\ td = dev
  | _ => True
  end.

Definition frame {X A} (f : St -> X) (m : M A) : Prop :=
  forall s a s', m s = Ok (a, s') -> f s' = f s.

(** The model slot is untouched by everything but [set_net]. *)
Definition net_of (s : St) := net s.

(** The files and the accelerator are untouched by all but [set_fs]. *)
Definition fs_cuda (s : St) := (fs s, cuda_avail s).

Definition params_of (s : St) := parameters (net s).

End Specs.

Section Theory.
Context {R : Type} `{Torch R} `{Autograd R}.
Open Scope list_scope.

Lemma bind_ok {A B} (m : M A) (k : A -> M B) s r :
  bind m k s = Ok r -> exists a s1, m s = Ok (a, s1) /\ k a s1 = Ok r.
Proof.
  unfold bind. destruct (m s) as [[a s1]|e] eqn:E; [|discriminate].
  intros Hk. now exists a, s1.
Qed.

Lemma bind_err {A B} (m : M A) (k : A -> M B) s e :
  m s = Err e -> bind m k s = Err e.
Proof. unfold bind. now intros ->. Qed.

(** Peel the first bind off a successful run. *)
Ltac peel H :=
  let a := fresh "a" in let s1 := fresh "s" in
  let H1 := fresh "Hm" in let H2 := fresh "Hk" in
  apply bind_ok in H; destruct H as (a & s1 & H1 & H2).

Tactic Notation "unbind" hyp(H) "as" ident(a) ident(s1) ident(H1) ident(H2) :=
  apply bind_ok in H; destruct H as (a & s1 & H1 & H2).

(** ** Inversion of the primitive steps *)

Ltac unfold_prims :=
  unfold bind, ret, raise, get, put, emit, set_net, set_grads, set_opt,
    set_grad_enabled, set_fs in *.

Lemma require_device_ok d s u s' :
  require_device d s = Ok (u, s') ->
  s' = s /\ (is_cuda d = true -> cuda_avail s = true).
Proof.
  unfold require_device; unfold_prims.
  destruct (is_cuda d), (cuda_avail s); simpl; intro E; inversion E; auto.
Qed.

Lemma to_device_ok {A} d (t t' : tensor A) s s' :
  to_device d t s = Ok (t', s') ->
  t' = tensor_to d t /\ net s' = net s /\ grad_enabled s' = grad_enabled s /\ cuda_avail s' = cuda_avail s /\ fs s' = fs s /\ log s' = log s ++ [EvTo d].
Proof.
  unfold to_device. intro E. peel E. apply require_device_ok in Hm as [-> _].
  unfold_prims. inversion Hk; subst. simpl. auto 6.
Qed.

Lemma model_to_ok d s u s' :
  model_to d s = Ok (u, s') ->
  net s' = net_to d (net s) /\ (is_cuda d = true -> cuda_avail s = true) /\ grad_enabled s' = grad_enabled s /\ cuda_avail s' = cuda_avail s /\ fs s' = fs s /\ log s' = log s.
Proof.
  unfold model_to. intro E. peel E. apply require_device_ok in Hm as [-> Hc].
  unfold_prims. inversion Hk; subst. simpl. auto 6.
Qed.

Lemma call_model_ok bs x s y g s' :
  call_model bs x s = Ok ((y, g), s') ->
  forward bs (net s) x = Ok y /\ net s' = net s /\ grad_enabled s' = grad_enabled s /\ cuda_avail s' = cuda_avail s /\ g = (if grad_enabled s then Some (bs, net s, x) else None) /\ log s' = log s ++ [EvForward (tdev x) (map tdev (parameters (net s)))
                                (grad_enabled s)].
Proof.
  unfold call_model; unfold_prims. simpl.
  destruct (forward bs (net s) x); intro E; inversion E; subst; simpl; auto 7.
Qed.

Lemma with_no_grad_ok {A} (body : M A) s a s' :
  with_no_grad body s = Ok (a, s') ->
  exists s1 s2, body s1 = Ok (a, s2) /\ net s1 = net s /\ net s' = net s2 /\   grad_enabled s1 = false /\ grad_enabled s' = grad_enabled s /\   cuda_avail s1 = cuda_avail s /\ cuda_avail s' = cuda_avail s2 /\   log s1 = log s ++ [EvNoGrad false] /\   log s' = log s2 ++ [EvNoGrad (grad_enabled s)].
Proof.
  unfold with_no_grad. intro E. peel E. unfold get in Hm. inversion Hm; subst.
  unfold_prims. simpl in Hk.
  destruct (body _) as [[b s2]|e] eqn:Eb; [|discriminate].
  inversion Hk; subst. eexists _, s2. split; [exact Eb|]. simpl. auto 10.
Qed.

(** ** Traces of the training and evaluation loops *)

Lemma view_dev bs (x y : tensor R) : view bs x = Ok y -> tdev y = tdev x.
Proof.
  unfold view. destruct (Nat.eqb bs 0); [discriminate|].
  destruct (negb _); [discriminate|]. intro E; now inversion E.
Qed.

Lemma linear_dev (l : Linear (R := R)) (x y : tensor R) : linear l x = Ok y -> tdev y = tdev x.
Proof.
  unfold linear. destruct (negb _); [discriminate|].
  destruct (tshape (weight l)) as [|o [|i [|]]]; try discriminate.
  destruct (tshape x) as [|n [|k [|]]]; try discriminate.
  destruct (negb _); [discriminate|]. intro E; now inversion E.
Qed.

Lemma softmax1_dev (x y : tensor R) : softmax1 x = Ok y -> tdev y = tdev x.
Proof.
  unfold softmax1. destruct (tshape x) as [|n [|k [|]]]; try discriminate.
  intro E; now inversion E.
Qed.

Lemma forward_dev bs (m : SimpleNet (R := R)) (x y : tensor R) : forward bs m x = Ok y -> tdev y = tdev x.
Proof.
  unfold forward, rbind.
  destruct (view bs x) as [x1|] eqn:E1; [|discriminate].
  destruct (linear (fc1 m) x1) as [x2|] eqn:E2; [|discriminate].
  destruct (linear (fc2 m) (relu x2)) as [x4|] eqn:E4; [|discriminate].
  intro E5. apply softmax1_dev in E5. apply linear_dev in E4.
  apply linear_dev in E2. apply view_dev in E1. simpl in E4. congruence.
Qed.

Lemma zero_grad_ok s u s' :
  zero_grad s = Ok (u, s') ->
  net s' = net s /\ grad_enabled s' = grad_enabled s /\
  cuda_avail s' = cuda_avail s /\ grads s' = None /\ log s' = log s ++ [EvZeroGrad].
Proof. unfold zero_grad; unfold_prims. intro E; inversion E; simpl; auto 6. Qed.

Lemma nll_loss_ok mean (o : tensor R) g t s l s' :
  nll_loss mean (o, g) t s = Ok (l, s') ->
  (exists v, nll_sum o t = Ok v) /\
  lgraph l = (match g with Some (bs, m, x) => Some (bs, m, x, t) | None => None end) /\
  net s' = net s /\ grad_enabled s' = grad_enabled s /\ cuda_avail s' = cuda_avail s /\
  log s' = log s ++ [EvNllLoss (tdev o) (tdev t) (grad_enabled s)].
Proof.
  unfold nll_loss; unfold_prims. simpl.
  destruct (nll_sum o t) as [v|e]; intro E; inversion E; subst; simpl.
  split; [now exists v|]. auto 6.
Qed.

Lemma backward_ok l s u s' :
  backward l s = Ok (u, s') ->
  lgraph l <> None /\ (exists gs, grads s' = Some gs) /\
  net s' = net s /\ grad_enabled s' = grad_enabled s /\
  cuda_avail s' = cuda_avail s /\ log s' = log s ++ [EvBackward].
Proof.
  unfold backward; unfold_prims. simpl.
  destruct (lgraph l) as [[[[bs m] x] t]|]; intro E; inversion E; subst; simpl.
  split; [discriminate|]. split; [eexists; reflexivity|]. auto 6.
Qed.

Lemma set_params_data_nil (m : SimpleNet (R := R)) : set_params_data m [] = m.
Proof.
  destruct m as [[i1 o1 [] []] [i2 o2 [] []] tr]. reflexivity.
Qed.

Lemma step_ok s u s' :
  step s = Ok (u, s') ->
  (exists ds, net s' = set_params_data (net s) ds) /\
  grad_enabled s' = grad_enabled s /\ cuda_avail s' = cuda_avail s /\
  log s' = log s ++ [EvStep].
Proof.
  unfold step; unfold_prims. simpl.
  destruct (grads s) as [gs|]; intro E; inversion E; subst; simpl.
  - split; [eexists; reflexivity|]. auto.
  - split; [exists []; symmetry; apply set_params_data_nil|]. auto.
Qed.

Lemma set_params_data_shape_dev (m : SimpleNet (R := R)) ds :
  map tshape (parameters (set_params_data m ds)) = map tshape (parameters m) /\
  map tdev (parameters (set_params_data m ds)) = map tdev (parameters m).
Proof. split; reflexivity. Qed.

Lemma train_step_ok bs dev b s u s' :
  train_step bs dev b s = Ok (u, s') ->
  grad_enabled s = true /\
  log s' = log s ++ train_events dev (map tdev (parameters (net s))) /\
  (exists ds, net s' = set_params_data (net s) ds) /\
  grad_enabled s' = grad_enabled s /\ cuda_avail s' = cuda_avail s.
Proof.
  unfold train_step. destruct b as [data0 target0]. intro E.
  unbind E as data s1 E1 E. apply to_device_ok in E1 as (-> & N1 & G1 & C1 & _ & L1).
  unbind E as target s2 E2 E. apply to_device_ok in E2 as (-> & N2 & G2 & C2 & _ & L2).
  unbind E as u3 s3 E3 E. apply zero_grad_ok in E3 as (N3 & G3 & C3 & _ & L3).
  unbind E as og s4 E4 E. destruct og as [o g].
  apply call_model_ok in E4 as (F4 & N4 & G4 & C4 & Hg & L4).
  unbind E as l s5 E5 E. apply nll_loss_ok in E5 as (_ & Hl & N5 & G5 & C5 & L5).
  unbind E as u6 s6 E6 E. apply backward_ok in E6 as (Hb & _ & N6 & G6 & C6 & L6).
  apply step_ok in E as ((ds & N7) & G7 & C7 & L7).
  apply forward_dev in F4. simpl in F4.
  assert (Gs : grad_enabled s3 = true).
  { destruct (grad_enabled s3); [reflexivity|]. subst g. now elim Hb. }
  assert (Nn : net s3 = net s) by congruence.
  split; [congruence|]. split.
  - rewrite L7, L6, L5, L4, L3, L2, L1. rewrite F4, G4, Gs, Nn. simpl.
    unfold train_events. now rewrite <- !app_assoc.
  - split; [exists ds; congruence|]. split; congruence.
Qed.

Lemma for_each_train_ok bs dev (l : list (tensor R * tensor nat)) s u s' :
  for_each l (train_step bs dev) s = Ok (u, s') ->
  log s' = log s ++ List.concat (repeat (train_events dev (map tdev (parameters (net s))))
                                   (List.length l)) /\
  map tshape (parameters (net s')) = map tshape (parameters (net s)) /\
  map tdev (parameters (net s')) = map tdev (parameters (net s)) /\
  grad_enabled s' = grad_enabled s /\ cuda_avail s' = cuda_avail s.
Proof.
  revert s. induction l as [|b l IH]; intros s E; simpl in E.
  - unfold ret in E. inversion E; subst. simpl. rewrite app_nil_r. auto.
  - unbind E as u1 s1 E1 E. apply train_step_ok in E1 as (_ & L1 & (ds & N1) & G1 & C1).
    apply IH in E as (L & Sh & Dv & G & C).
    assert (Dv1 : map tdev (parameters (net s1)) = map tdev (parameters (net s)))
      by (rewrite N1; apply set_params_data_shape_dev).
    assert (Sh1 : map tshape (parameters (net s1)) = map tshape (parameters (net s)))
      by (rewrite N1; apply set_params_data_shape_dev).
    rewrite Dv1 in L. rewrite L, L1. cbn [repeat List.concat List.length].
    rewrite <- app_assoc. repeat split; congruence.
Qed.

Lemma emit_ok e s u s' :
  emit e s = Ok (u, s') ->
  net s' = net s /\ grad_enabled s' = grad_enabled s /\
  cuda_avail s' = cuda_avail s /\ fs s' = fs s /\ log s' = log s ++ [e].
Proof. unfold emit. intro E; inversion E; simpl; auto. Qed.

Lemma model_train_ok s u s' :
  model_train s = Ok (u, s') ->
  net s' = net_train (net s) /\ grad_enabled s' = grad_enabled s /\
  cuda_avail s' = cuda_avail s /\ fs s' = fs s /\ log s' = log s ++ [EvTrainMode].
Proof. unfold model_train; unfold_prims. intro E; inversion E; simpl; auto. Qed.

Lemma model_eval_ok s u s' :
  model_eval s = Ok (u, s') ->
  net s' = net_eval (net s) /\ grad_enabled s' = grad_enabled s /\
  cuda_avail s' = cuda_avail s /\ fs s' = fs s /\ log s' = log s ++ [EvEvalMode].
Proof. unfold model_eval; unfold_prims. intro E; inversion E; simpl; auto. Qed.

Lemma train_ok bs dev tl ep s u s' :
  train bs dev tl ep s = Ok (u, s') ->
  log s' = log s ++ [EvTrainMode; EvPrint (PDevice dev)] ++
           List.concat (repeat (train_events dev (map tdev (parameters (net s))))
                          (List.length (batches tl))) /\
  map tshape (parameters (net s')) = map tshape (parameters (net s)) /\
  map tdev (parameters (net s')) = map tdev (parameters (net s)) /\
  grad_enabled s' = grad_enabled s /\ cuda_avail s' = cuda_avail s.
Proof.
  unfold train. intro E.
  unbind E as u1 s1 E1 E. apply model_train_ok in E1 as (N1 & G1 & C1 & _ & L1).
  unbind E as u2 s2 E2 E. apply emit_ok in E2 as (N2 & G2 & C2 & _ & L2).
  apply for_each_train_ok in E as (L & Sh & Dv & G & C).
  rewrite L, Sh, Dv, G, C, L2, L1, N2, N1, G2, G1, C2, C1. simpl.
  rewrite <- !app_assoc. simpl. auto.
Qed.

Lemma test_step_ok bs dev acc b s acc' s' :
  test_step bs dev acc b s = Ok (acc', s') ->
  log s' = log s ++ test_events dev (map tdev (parameters (net s))) (grad_enabled s) /\
  net s' = net s /\ grad_enabled s' = grad_enabled s /\ cuda_avail s' = cuda_avail s.
Proof.
  unfold test_step. destruct b as [data0 target0]. intro E.
  unbind E as data s1 E1 E. apply to_device_ok in E1 as (-> & N1 & G1 & C1 & _ & L1).
  unbind E as target s2 E2 E. apply to_device_ok in E2 as (-> & N2 & G2 & C2 & _ & L2).
  unbind E as og s4 E4 E. destruct og as [o g].
  apply call_model_ok in E4 as (F4 & N4 & G4 & C4 & Hg & L4).
  unbind E as l s5 E5 E. apply nll_loss_ok in E5 as (_ & Hl & N5 & G5 & C5 & L5).
  unfold ret in E. inversion E; subst.
  apply forward_dev in F4. simpl in F4.
  split; [|repeat split; congruence].
  rewrite L5, L4, L2, L1, F4, G4, G2, G1, N2, N1. simpl.
  unfold test_events. now rewrite <- !app_assoc.
Qed.

Lemma fold_test_ok bs dev (l : list (tensor R * tensor nat)) acc s r s' :
  fold_batches l acc (test_step bs dev) s = Ok (r, s') ->
  log s' = log s ++ List.concat (repeat (test_events dev (map tdev (parameters (net s)))
                                         (grad_enabled s)) (List.length l)) /\
  net s' = net s /\ grad_enabled s' = grad_enabled s /\ cuda_avail s' = cuda_avail s.
Proof.
  revert acc s. induction l as [|b l IH]; intros acc s E; simpl in E.
  - unfold ret in E. inversion E; subst. simpl. rewrite app_nil_r. auto.
  - unbind E as acc1 s1 E1 E. apply test_step_ok in E1 as (L1 & N1 & G1 & C1).
    apply IH in E as (L & N & G & C).
    rewrite N1, G1 in L. rewrite L, L1. cbn [repeat List.concat List.length].
    rewrite <- app_assoc. repeat split; congruence.
Qed.

Lemma test_ok bs dev tl s u s' :
  test bs dev tl s = Ok (u, s') ->
  (exists v c,
    log s' = log s ++ [EvEvalMode; EvNoGrad false] ++
             List.concat (repeat (test_events dev (map tdev (parameters (net s))) false)
                            (List.length (batches tl))) ++
             [EvNoGrad (grad_enabled s); EvPrint (PTestReport v c (dataset_len tl))]) /\
  net s' = net_eval (net s) /\ grad_enabled s' = grad_enabled s /\
  cuda_avail s' = cuda_avail s /\ dataset_len tl <> 0.
Proof.
  unfold test. intro E.
  unbind E as u1 s1 E1 E. apply model_eval_ok in E1 as (N1 & G1 & C1 & _ & L1).
  unbind E as acc s2 E2 E.
  apply with_no_grad_ok in E2 as (s3 & s4 & Hb & N3 & N4 & G3 & G4 & C3 & C4 & L3 & L4).
  apply fold_test_ok in Hb as (Lb & Nb & Gb & Cb).
  destruct (Nat.eqb (dataset_len tl) 0) eqn:Hz; [discriminate|].
  apply emit_ok in E as (N5 & G5 & C5 & _ & L5).
  apply Nat.eqb_neq in Hz.
  split; [|repeat split; congruence].
  eexists _, _. rewrite L5, L4, Lb, L3, L1, G3, N3, N1, G1. simpl.
  rewrite <- !app_assoc. reflexivity.
Qed.

(** ** Runs that raise nothing *)

Lemma device_eqb_refl d : device_eqb d d = true.
Proof. now apply device_eqb_eq. Qed.

Lemma view_succ bs (x : tensor R) :
  0 < bs -> numel (tshape x) = bs * 784 ->
  view bs x = Ok (mkTensor (tdata x) [bs; 784] (tdev x)).
Proof.
  intros Hbs Hn. unfold view. rewrite Hn.
  replace (Nat.eqb bs 0) with false by (symmetry; apply Nat.eqb_neq; lia).
  replace ((bs * 784) mod bs) with 0
    by (rewrite Nat.mul_comm; symmetry; apply Nat.Div0.mod_mul).
  replace (bs * 784 / bs) with 784
    by (rewrite Nat.mul_comm; symmetry; apply Nat.div_mul; lia).
  reflexivity.
Qed.

Lemma forward_succ bs d (m : SimpleNet (R := R)) (x : tensor R) :
  0 < bs -> net_shapes_ok m -> on_dev d m -> tdev x = d ->
  numel (tshape x) = bs * 784 ->
  exists y, forward bs m x = Ok y /\ tshape y = [bs; 10] /\ tdev y = d.
Proof.
  intros Hbs Hs Hd Hx Hn.
  destruct m as [[i1 o1 w1 b1] [i2 o2 w2 b2] tr].
  unfold net_shapes_ok, on_dev in *; cbn [parameters fc1 fc2 weight bias map] in Hs, Hd.
  injection Hs as Sw1 Sb1 Sw2 Sb2. injection Hd as Dw1 Db1 Dw2 Db2.
  unfold forward. rewrite (view_succ bs x Hbs Hn). cbn [rbind fc1 fc2].
  unfold linear at 1. cbn [weight bias tdev tshape].
  rewrite Hx, Dw1, Db1, device_eqb_refl, Sw1. cbn [andb negb].
  rewrite Nat.eqb_refl. cbn [negb rbind].
  unfold linear. cbn [weight bias tdev tshape relu].
  rewrite Dw2, Db2, device_eqb_refl, Sw2. cbn [andb negb].
  rewrite Nat.eqb_refl. cbn [negb rbind].
  unfold softmax1. cbn [tshape tdev].
  eexists. split; [reflexivity|]. auto.
Qed.

Lemma nll_sum_succ bs d (o : tensor R) (t : tensor nat) :
  tshape o = [bs; 10] -> tdev o = d -> tdev t = d ->
  tshape t = [bs] -> List.length (tdata t) = bs ->
  forallb (fun y => Nat.ltb y 10) (tdata t) = true ->
  exists v, nll_sum o t = Ok v.
Proof.
  intros So Do Dt St Lt Ft. unfold nll_sum.
  rewrite Do, Dt, device_eqb_refl, So, St, Lt, Nat.eqb_refl, Ft. simpl.
  eexists; reflexivity.
Qed.

Lemma to_device_succ {A} d (t : tensor A) s :
  (is_cuda d = true -> cuda_avail s = true) ->
  exists s', to_device d t s = Ok (tensor_to d t, s').
Proof.
  intro Hc. unfold to_device, require_device; unfold_prims.
  destruct (is_cuda d) eqn:Ec; simpl.
  - rewrite (Hc eq_refl). simpl. eexists; reflexivity.
  - eexists; reflexivity.
Qed.

Lemma bind_assoc_at {A B C} (m : M A) (k : A -> M B) (k' : B -> M C) s :
  bind (bind m k) k' s = bind m (fun a => bind (k a) k') s.
Proof. unfold bind. destruct (m s) as [[a s1]|e]; reflexivity. Qed.

Lemma bind_succ {A B} (m : M A) (k : A -> M B) s a s1 :
  m s = Ok (a, s1) -> bind m k s = k a s1.
Proof. unfold bind. now intros ->. Qed.

Lemma zero_grad_succ s : exists s', zero_grad s = Ok (tt, s').
Proof. eexists; reflexivity. Qed.

Lemma step_succ s : exists s', step s = Ok (tt, s').
Proof.
  unfold step; unfold_prims. simpl. destruct (grads s); eexists; reflexivity.
Qed.

Lemma call_model_succ bs x s y :
  forward bs (net s) x = Ok y ->
  exists s', call_model bs x s =
             Ok ((y, if grad_enabled s then Some (bs, net s, x) else None), s').
Proof. intro F. unfold call_model; unfold_prims. simpl. rewrite F. eexists; reflexivity. Qed.

Lemma nll_loss_succ mean (o : tensor R) g t s v :
  nll_sum o t = Ok v ->
  exists l s', nll_loss mean (o, g) t s = Ok (l, s') /\
    lgraph l = (match g with Some (bs, m, x) => Some (bs, m, x, t) | None => None end).
Proof.
  intro F. unfold nll_loss; unfold_prims. simpl. rewrite F.
  eexists _, _. split; reflexivity.
Qed.

Lemma backward_succ (l : loss (R := R)) s :
  lgraph l <> None -> exists s', backward l s = Ok (tt, s').
Proof.
  intro G. unfold backward; unfold_prims. simpl.
  destruct (lgraph l) as [[[[bs m] x] t]|]; [|now elim G].
  eexists; reflexivity.
Qed.

Lemma train_step_succ bs dev b s :
  0 < bs -> kernel_ok dev s -> grad_enabled s = true -> batch_ok bs b ->
  exists s', train_step bs dev b s = Ok (tt, s').
Proof.
  intros Hbs (Ks & Kd & Kc) Hg (Bn & Bs & Bl & Bf). destruct b as [d0 t0].
  cbn [fst snd] in *. unfold train_step.
  destruct (to_device_succ dev d0 s Kc) as [s1 E1]. rewrite (bind_succ _ _ _ _ _ E1).
  apply to_device_ok in E1 as (_ & N1 & G1 & C1 & _).
  destruct (to_device_succ dev t0 s1) as [s2 E2]; [rewrite C1; exact Kc|].
  rewrite (bind_succ _ _ _ _ _ E2).
  apply to_device_ok in E2 as (_ & N2 & G2 & C2 & _).
  destruct (zero_grad_succ s2) as [s3 E3]. rewrite (bind_succ _ _ _ _ _ E3).
  apply zero_grad_ok in E3 as (N3 & G3 & C3 & _).
  destruct (forward_succ bs dev (net s3) (tensor_to dev d0)) as (y & F & Sy & Dy);
    auto; try congruence.
  destruct (call_model_succ bs _ s3 y F) as [s4 E4]. rewrite (bind_succ _ _ _ _ _ E4).
  apply call_model_ok in E4 as (_ & N4 & G4 & C4 & _).
  destruct (nll_sum_succ bs dev y (tensor_to dev t0)) as [v V]; auto.
  destruct (nll_loss_succ true y (if grad_enabled s3 then Some (bs, net s3, tensor_to dev d0)
                                  else None) (tensor_to dev t0) s4 v V) as (l & s5 & E5 & Gl).
  rewrite (bind_succ _ _ _ _ _ E5).
  destruct (backward_succ l s5) as [s6 E6].
  { rewrite Gl. replace (grad_enabled s3) with true by congruence. discriminate. }
  rewrite (bind_succ _ _ _ _ _ E6). apply step_succ.
Qed.

Lemma kernel_ok_step dev s s' ds :
  kernel_ok dev s -> net s' = set_params_data (net s) ds ->
  cuda_avail s' = cuda_avail s -> kernel_ok dev s'.
Proof.
  intros (Ks & Kd & Kc) N C. unfold kernel_ok, net_shapes_ok, on_dev in *.
  rewrite N, C. repeat split; auto.
Qed.

Lemma for_each_train_succ bs dev (l : list (tensor R * tensor nat)) s :
  0 < bs -> kernel_ok dev s -> grad_enabled s = true -> Forall (batch_ok bs) l ->
  exists s', for_each l (train_step bs dev) s = Ok (tt, s').
Proof.
  intros Hbs. revert s. induction l as [|b l IH]; intros s K G F; simpl.
  - eexists; reflexivity.
  - inversion F; subst.
    destruct (train_step_succ bs dev b s) as [s1 E1]; auto.
    rewrite (bind_succ _ _ _ _ _ E1).
    apply train_step_ok in E1 as (_ & _ & (ds & N1) & G1 & C1).
    apply IH; auto.
    + eapply kernel_ok_step; eauto.
    + congruence.
Qed.

Lemma test_step_succ bs dev acc b s :
  0 < bs -> kernel_ok dev s -> batch_ok bs b ->
  exists r s', test_step bs dev acc b s = Ok (r, s').
Proof.
  intros Hbs (Ks & Kd & Kc) (Bn & Bs & Bl & Bf). destruct b as [d0 t0].
  cbn [fst snd] in *. unfold test_step.
  destruct (to_device_succ dev d0 s Kc) as [s1 E1]. rewrite (bind_succ _ _ _ _ _ E1).
  apply to_device_ok in E1 as (_ & N1 & G1 & C1 & _).
  destruct (to_device_succ dev t0 s1) as [s2 E2]; [rewrite C1; exact Kc|].
  rewrite (bind_succ _ _ _ _ _ E2).
  apply to_device_ok in E2 as (_ & N2 & G2 & C2 & _).
  destruct (forward_succ bs dev (net s2) (tensor_to dev d0)) as (y & F & Sy & Dy);
    auto; try congruence.
  destruct (call_model_succ bs _ s2 y F) as [s4 E4]. rewrite (bind_succ _ _ _ _ _ E4).
  destruct (nll_sum_succ bs dev y (tensor_to dev t0)) as [v V]; auto.
  destruct (nll_loss_succ false y (if grad_enabled s2 then Some (bs, net s2, tensor_to dev d0)
                                  else None) (tensor_to dev t0) s4 v V) as (l & s5 & E5 & Gl).
  rewrite (bind_succ _ _ _ _ _ E5). eexists _, _; reflexivity.
Qed.

Lemma fold_test_succ bs dev (l : list (tensor R * tensor nat)) acc s :
  0 < bs -> kernel_ok dev s -> Forall (batch_ok bs) l ->
  exists r s', fold_batches l acc (test_step bs dev) s = Ok (r, s').
Proof.
  intros Hbs. revert acc s. induction l as [|b l IH]; intros acc s K F; simpl.
  - eexists _, _; reflexivity.
  - inversion F; subst.
    destruct (test_step_succ bs dev acc b s) as (acc1 & s1 & E1); auto.
    rewrite (bind_succ _ _ _ _ _ E1).
    apply test_step_ok in E1 as (_ & N1 & G1 & C1).
    apply IH; auto. destruct K as (Ks & Kd & Kc).
    unfold kernel_ok. rewrite N1, C1. auto.
Qed.

Lemma with_no_grad_succ {A} (body : M A) s a s2 :
  body (mkSt (fs s) (cuda_avail s) (net s) (grads s) (opt s) false
             (log s ++ [EvNoGrad false])) = Ok (a, s2) ->
  with_no_grad body s =
    Ok (a, mkSt (fs s2) (cuda_avail s2) (net s2) (grads s2) (opt s2)
                (grad_enabled s) (log s2 ++ [EvNoGrad (grad_enabled s)])).
Proof.
  intro E. unfold with_no_grad; unfold_prims. cbn. rewrite E. reflexivity.
Qed.

Lemma test_succ bs dev tl s :
  0 < bs -> kernel_ok dev s -> Forall (batch_ok bs) (batches tl) ->
  dataset_len tl <> 0 ->
  exists s', test bs dev tl s = Ok (tt, s').
Proof.
  intros Hbs K F Hn. unfold test.
  assert (E1 : model_eval s = Ok (tt, mkSt (fs s) (cuda_avail s) (net_eval (net s))
                  (grads s) (opt s) (grad_enabled s) (log s ++ [EvEvalMode])))
    by reflexivity.
  rewrite (bind_succ _ _ _ _ _ E1).
  set (s1 := mkSt (fs s) (cuda_avail s) (net_eval (net s)) (grads s) (opt s)
                  (grad_enabled s) (log s ++ [EvEvalMode])).
  set (s2 := mkSt (fs s1) (cuda_avail s1) (net s1) (grads s1) (opt s1) false
                  (log s1 ++ [EvNoGrad false])).
  destruct (fold_test_succ bs dev (batches tl) (r0, 0) s2) as (acc & s3 & E3); auto.
  apply (with_no_grad_succ _ s1) in E3. rewrite (bind_succ _ _ _ _ _ E3).
  apply Nat.eqb_neq in Hn. rewrite Hn. eexists; reflexivity.
Qed.

Lemma train_succ bs dev tl ep s :
  0 < bs -> kernel_ok dev s -> grad_enabled s = true ->
  Forall (batch_ok bs) (batches tl) ->
  exists s', train bs dev tl ep s = Ok (tt, s').
Proof.
  intros Hbs K G F. unfold train.
  assert (E1 : model_train s = Ok (tt, mkSt (fs s) (cuda_avail s) (net_train (net s))
                  (grads s) (opt s) (grad_enabled s) (log s ++ [EvTrainMode])))
    by reflexivity.
  rewrite (bind_succ _ _ _ _ _ E1).
  unfold bind at 1. unfold emit at 1. cbn beta iota.
  apply for_each_train_succ; auto.
Qed.

(** ** The epoch driver *)

Lemma marks_app (a b : list (@event R)) : marks (a ++ b) = marks a ++ marks b.
Proof. apply flat_map_app. Qed.

Lemma marks_concat_repeat (l : list (@event R)) n :
  marks (List.concat (repeat l n)) = List.concat (repeat (marks l) n).
Proof.
  induction n as [|n IH]; [reflexivity|].
  cbn [repeat List.concat]. now rewrite marks_app, IH.
Qed.

Lemma concat_repeat_single {A} (x : A) n : List.concat (repeat [x] n) = repeat x n.
Proof. induction n as [|n IH]; simpl; congruence. Qed.

Lemma epochs_ok bs dev tl tsl (es : list nat) s :
  0 < bs -> kernel_ok dev s -> grad_enabled s = true ->
  Forall (batch_ok bs) (batches tl) -> Forall (batch_ok bs) (batches tsl) ->
  dataset_len tsl <> 0 ->
  exists s',
    for_each es (fun epoch =>
      emit (EvPrint (PEpoch epoch)) ;;;
      train bs dev tl epoch ;;;
      test bs dev tsl) s = Ok (tt, s') /\
    kernel_ok dev s' /\ grad_enabled s' = true /\
    exists new, log s' = log s ++ new /\
      marks new = flat_map (epoch_marks (List.length (batches tl))
                                        (List.length (batches tsl))) es.
Proof.
  intros Hbs K0 G0 Ftr Fte Hn. revert s K0 G0.
  induction es as [|e es IH]; intros s K G.
  - exists s. split; [reflexivity|]. split; [exact K|]. split; [exact G|].
    exists []. now rewrite app_nil_r.
  - cbn [for_each].
    assert (E1 : emit (R := R) (EvPrint (PEpoch e)) s =
      Ok (tt, mkSt (fs s) (cuda_avail s) (net s) (grads s) (opt s)
                   (grad_enabled s) (log s ++ [EvPrint (PEpoch e)]))) by reflexivity.
    rewrite bind_assoc_at, (bind_succ _ _ _ _ _ E1), bind_assoc_at.
    set (s1 := mkSt (fs s) (cuda_avail s) (net s) (grads s) (opt s)
                   (grad_enabled s) (log s ++ [EvPrint (PEpoch e)])).
    destruct (train_succ bs dev tl e s1) as [s2 E2]; auto.
    rewrite (bind_succ _ _ _ _ _ E2).
    apply train_ok in E2 as (L2 & Sh2 & Dv2 & G2 & C2).
    assert (K2 : kernel_ok dev s2).
    { destruct K as (Ks & Kd & Kc). unfold kernel_ok, net_shapes_ok, on_dev in *.
      rewrite Sh2, Dv2, C2. auto. }
    destruct (test_succ bs dev tsl s2) as [s3 E3]; auto.
    rewrite (bind_succ _ _ _ _ _ E3).
    apply test_ok in E3 as ((v & c & L3) & N3 & G3 & C3 & _).
    assert (K3 : kernel_ok dev s3).
    { destruct K2 as (Ks & Kd & Kc). unfold kernel_ok, net_shapes_ok, on_dev in *.
      rewrite N3, C3. auto. }
    destruct (IH s3) as (s4 & E4 & K4 & G4 & new & L4 & M4); auto; [rewrite G3, G2; exact G|].
    exists s4. split; [exact E4|]. split; [exact K4|]. split; [exact G4|].
    eexists. split.
    + rewrite L4, L3, L2. cbn [log s1]. rewrite <- !app_assoc. reflexivity.
    + rewrite !marks_app, M4, !marks_concat_repeat. cbn [flat_map].
      unfold train_events, test_events, marks. cbn.
      rewrite !concat_repeat_single.
      unfold epoch_marks. cbn. rewrite <- !app_assoc. reflexivity.
Qed.

(** ** Device consistency *)

Lemma bind_err_inv {A B} (m : M A) (k : A -> M B) s e :
  bind m k s = Err e ->
  m s = Err e \/ exists a s1, m s = Ok (a, s1) /\ k a s1 = Err e.
Proof.
  unfold bind. destruct (m s) as [[a s1]|e']; intro E.
  - right. now exists a, s1.
  - left. now inversion E.
Qed.

Tactic Notation "unbind_err" hyp(H) "as" ident(a) ident(s1) ident(H1) ident(H2) :=
  apply bind_err_inv in H; destruct H as [H|(a & s1 & H1 & H2)].

Lemma to_device_err {A} d (t : tensor A) s e :
  to_device d t s = Err e -> e = NoCudaRuntimeError.
Proof.
  unfold to_device, require_device; unfold_prims. simpl.
  destruct (is_cuda d && negb (cuda_avail s)); intro E; inversion E; auto.
Qed.

Lemma call_model_err bs x s e :
  call_model bs x s = Err e -> forward bs (net s) x = Err e.
Proof.
  unfold call_model; unfold_prims. simpl.
  destruct (forward bs (net s) x); intro E; inversion E; auto.
Qed.

Lemma nll_loss_err mean (o : tensor R) g t s e :
  nll_loss mean (o, g) t s = Err e -> nll_sum o t = Err e.
Proof.
  unfold nll_loss; unfold_prims. simpl.
  destruct (nll_sum o t); intro E; inversion E; auto.
Qed.

Lemma backward_err (l : loss (R := R)) s e :
  backward l s = Err e -> e = BackwardNoGradError.
Proof.
  unfold backward; unfold_prims. simpl.
  destruct (lgraph l) as [[[[bs m] x] t]|]; intro E; inversion E; auto.
Qed.

Lemma step_err s e : step s = Err e -> False.
Proof. unfold step; unfold_prims. simpl. destruct (grads s); discriminate. Qed.

Lemma with_no_grad_err {A} (body : M A) s e :
  with_no_grad body s = Err e ->
  exists s1, body s1 = Err e /\ net s1 = net s.
Proof.
  unfold with_no_grad; unfold_prims. cbn.
  destruct (body _) as [[a s2]|e'] eqn:Eb; intro E; inversion E; subst.
  eexists; split; [exact Eb|reflexivity].
Qed.

Lemma forward_no_dm bs d (m : SimpleNet (R := R)) (x : tensor R) :
  on_dev d m -> tdev x = d -> forward bs m x <> Err DeviceMismatchError.
Proof.
  intros Hd Hx. destruct m as [[i1 o1 w1 b1] [i2 o2 w2 b2] tr].
  unfold on_dev in Hd; cbn [parameters fc1 fc2 weight bias map] in Hd.
  injection Hd as Dw1 Db1 Dw2 Db2.
  unfold forward. destruct (view bs x) as [x1|e] eqn:V; cbn [rbind].
  2:{ unfold view in V. destruct (Nat.eqb bs 0); [|destruct (negb _)];
      inversion V; discriminate. }
  apply view_dev in V. unfold linear at 1; cbn [fc1 fc2 weight bias tdev].
  rewrite V, Hx, Dw1, Db1, device_eqb_refl. cbn [andb negb].
  destruct (tshape w1) as [|o [|i [|]]]; try discriminate.
  destruct (tshape x1) as [|n [|k [|]]]; try discriminate.
  destruct (negb (Nat.eqb k i)); [discriminate|]. cbn [rbind].
  unfold linear; cbn [fc1 fc2 weight bias relu tdev].
  rewrite ?Hx, ?Dw2, ?Db2, ?device_eqb_refl. cbn [andb negb].
  destruct (tshape w2) as [|o' [|i' [|]]]; try discriminate.
  cbn [tshape relu]. destruct (negb (Nat.eqb o i')); [discriminate|]. cbn [rbind].
  unfold softmax1. cbn [tshape]. discriminate.
Qed.

Lemma nll_sum_no_dm (o : tensor R) (t : tensor nat) :
  tdev o = tdev t -> nll_sum o t <> Err DeviceMismatchError.
Proof.
  intro Hd. unfold nll_sum. rewrite Hd, device_eqb_refl. cbn [negb].
  destruct (tshape o) as [|n [|c [|]]]; try discriminate.
  destruct (tshape t) as [|n' [|]]; try discriminate.
  destruct (negb _); [discriminate|]. destruct (negb _); discriminate.
Qed.

Lemma train_step_no_dm bs dev b s e :
  on_dev dev (net s) -> train_step bs dev b s = Err e -> e <> DeviceMismatchError.
Proof.
  intros Hd E. unfold train_step in E. destruct b as [data0 target0].
  unbind_err E as data s1 E1 E; [apply to_device_err in E; subst; discriminate|].
  apply to_device_ok in E1 as (-> & N1 & _).
  unbind_err E as target s2 E2 E; [apply to_device_err in E; subst; discriminate|].
  apply to_device_ok in E2 as (-> & N2 & _).
  unbind_err E as u3 s3 E3 E; [discriminate|].
  apply zero_grad_ok in E3 as (N3 & _).
  unbind_err E as og s4 E4 E.
  { apply call_model_err in E. intros ->. revert E.
    apply (forward_no_dm bs dev); [congruence|reflexivity]. }
  destruct og as [o g]. apply call_model_ok in E4 as (F4 & N4 & _).
  apply forward_dev in F4.
  unbind_err E as l s5 E5 E.
  { apply nll_loss_err in E. intros ->. revert E. apply nll_sum_no_dm. exact F4. }
  unbind_err E as u6 s6 E6 E; [apply backward_err in E; subst; discriminate|].
  exfalso. exact (step_err _ _ E).
Qed.

Lemma test_step_no_dm bs dev acc b s e :
  on_dev dev (net s) -> test_step bs dev acc b s = Err e -> e <> DeviceMismatchError.
Proof.
  intros Hd E. unfold test_step in E. destruct b as [data0 target0].
  unbind_err E as data s1 E1 E; [apply to_device_err in E; subst; discriminate|].
  apply to_device_ok in E1 as (-> & N1 & _).
  unbind_err E as target s2 E2 E; [apply to_device_err in E; subst; discriminate|].
  apply to_device_ok in E2 as (-> & N2 & _).
  unbind_err E as og s4 E4 E.
  { apply call_model_err in E. intros ->. revert E.
    apply (forward_no_dm bs dev); [congruence|reflexivity]. }
  destruct og as [o g]. apply call_model_ok in E4 as (F4 & N4 & _).
  apply forward_dev in F4.
  unbind_err E as l s5 E5 E.
  { apply nll_loss_err in E. intros ->. revert E. apply nll_sum_no_dm. exact F4. }
  discriminate.
Qed.

Lemma on_dev_set_params d (m : SimpleNet (R := R)) ds : on_dev d m -> on_dev d (set_params_data m ds).
Proof. unfold on_dev. intro Hd. rewrite <- Hd. reflexivity. Qed.

Lemma for_each_train_no_dm bs dev (l : list (tensor R * tensor nat)) s e :
  on_dev dev (net s) -> for_each l (train_step bs dev) s = Err e ->
  e <> DeviceMismatchError.
Proof.
  revert s. induction l as [|b l IH]; intros s Hd E; simpl in E; [discriminate|].
  unbind_err E as u1 s1 E1 E; [exact (train_step_no_dm _ _ _ _ _ Hd E)|].
  apply train_step_ok in E1 as (_ & _ & (ds & N1) & _).
  apply (IH s1); [rewrite N1; now apply on_dev_set_params | exact E].
Qed.

Lemma train_no_dm bs dev tl ep s e :
  on_dev dev (net s) -> train bs dev tl ep s = Err e -> e <> DeviceMismatchError.
Proof.
  intros Hd E. unfold train in E.
  unbind_err E as u1 s1 E1 E; [discriminate|].
  apply model_train_ok in E1 as (N1 & _).
  unbind_err E as u2 s2 E2 E; [discriminate|].
  apply emit_ok in E2 as (N2 & _).
  apply (for_each_train_no_dm bs dev (batches tl) s2); [rewrite N2, N1; exact Hd|exact E].
Qed.

Lemma fold_test_no_dm bs dev (l : list (tensor R * tensor nat)) acc s e :
  on_dev dev (net s) -> fold_batches l acc (test_step bs dev) s = Err e ->
  e <> DeviceMismatchError.
Proof.
  revert acc s. induction l as [|b l IH]; intros acc s Hd E; simpl in E; [discriminate|].
  unbind_err E as acc1 s1 E1 E; [exact (test_step_no_dm _ _ _ _ _ _ Hd E)|].
  apply test_step_ok in E1 as (_ & N1 & _).
  apply (IH acc1 s1); [rewrite N1; exact Hd|exact E].
Qed.

Lemma test_no_dm bs dev tl s e :
  on_dev dev (net s) -> test bs dev tl s = Err e -> e <> DeviceMismatchError.
Proof.
  intros Hd E. unfold test in E.
  unbind_err E as u1 s1 E1 E; [discriminate|].
  apply model_eval_ok in E1 as (N1 & _).
  unbind_err E as acc s2 E2 E.
  { apply with_no_grad_err in E as (s3 & E3 & N3).
    apply (fold_test_no_dm bs dev (batches tl) (r0, 0) s3) in E3; [exact E3|].
    rewrite N3, N1. exact Hd. }
  destruct (Nat.eqb _ 0); [inversion E; discriminate|discriminate].
Qed.

Lemma Forall_concat_repeat {A} (P : A -> Prop) l n :
  Forall P l -> Forall P (List.concat (repeat l n)).
Proof.
  intro F. induction n as [|n IH]; [constructor|].
  cbn [repeat List.concat]. now apply Forall_app.
Qed.

Lemma epochs_consistent bs dev tl tsl (es : list nat) s s' :
  on_dev dev (net s) ->
  for_each es (fun epoch =>
      emit (EvPrint (PEpoch epoch)) ;;;
      train bs dev tl epoch ;;;
      test bs dev tsl) s = Ok (tt, s') ->
  on_dev dev (net s') /\
  exists new, log s' = log s ++ new /\ Forall (consistent_ev dev) new.
Proof.
  revert s. induction es as [|e es IH]; intros s Hd E; simpl in E.
  - inversion E; subst. split; [exact Hd|]. exists []. split.
    + now rewrite app_nil_r.
    + constructor.
  - unbind E as u1 s1 E1 E.
    unbind E1 as u2 s2 E2 E1. apply emit_ok in E2 as (N2 & _ & _ & _ & L2).
    unbind E1 as u3 s3 E3 E1.
    apply train_ok in E3 as (L3 & _ & D3 & _).
    apply test_ok in E1 as ((v & c & L1) & N1 & _).
    assert (Hd1 : on_dev dev (net s1)).
    { unfold on_dev in *. rewrite N1. cbn [net_eval]. unfold parameters in *.
      cbn [fc1 fc2]. rewrite <- Hd, <- N2. exact D3. }
    destruct (IH s1 Hd1 E) as (Hd' & new & L & F).
    split; [exact Hd'|].
    assert (P3 : map tdev (parameters (net s3)) = repeat dev 4)
      by (rewrite D3, N2; exact Hd).
    assert (P2 : map tdev (parameters (net s2)) = repeat dev 4)
      by (rewrite N2; exact Hd).
    rewrite P2 in L3. rewrite P3 in L1.
    eexists. split.
    + rewrite L, L1, L3, L2. rewrite <- !app_assoc. reflexivity.
    + repeat (apply Forall_app; split); try apply Forall_concat_repeat;
        repeat constructor; auto.
Qed.

Lemma epochs_no_dm bs dev tl tsl (es : list nat) s e :
  on_dev dev (net s) ->
  for_each es (fun epoch =>
      emit (EvPrint (PEpoch epoch)) ;;;
      train bs dev tl epoch ;;;
      test bs dev tsl) s = Err e ->
  e <> DeviceMismatchError.
Proof.
  revert s. induction es as [|e0 es IH]; intros s Hd E; simpl in E; [discriminate|].
  unbind_err E as u1 s1 E1 E.
  - unbind_err E as u2 s2 E2 E; [discriminate|].
    apply emit_ok in E2 as (N2 & _).
    unbind_err E as u3 s3 E3 E.
    + exact (train_no_dm _ _ _ _ _ _ ltac:(rewrite N2; exact Hd) E).
    + apply train_ok in E3 as (_ & _ & D3 & _).
      apply (test_no_dm bs dev tsl s3); [|exact E].
      unfold on_dev. rewrite D3, N2. exact Hd.
  - unbind E1 as u2 s2 E2 E1. apply emit_ok in E2 as (N2 & _).
    unbind E1 as u3 s3 E3 E1.
    apply train_ok in E3 as (_ & _ & D3 & _).
    apply test_ok in E1 as (_ & N1 & _).
    apply (IH s1); [|exact E].
    unfold on_dev in *. rewrite N1. cbn [net_eval]. unfold parameters in *.
    cbn [fc1 fc2]. rewrite <- Hd, <- N2. exact D3.
Qed.

(** ** Frames: what a computation leaves unchanged *)

Lemma frame_bind {X A B} (f : St -> X) (m : M A) (k : A -> M B) :
  frame f m -> (forall a, frame f (k a)) -> frame f (bind m k).
Proof.
  intros Hm Hk s b s' E. peel E.
  rewrite (Hk _ _ _ _ Hk0). exact (Hm _ _ _ Hm0).
Qed.

Lemma frame_ret {X A} (f : St -> X) (a : A) : frame f (ret a).
Proof. intros s b s' E. now inversion E. Qed.

Lemma frame_raise {X A} (f : St -> X) e : frame f (raise (A := A) e).
Proof. intros s b s' E. discriminate. Qed.

Lemma frame_get {X} (f : St -> X) : frame f get.
Proof. intros s b s' E. now inversion E. Qed.

Lemma frame_emit e : frame net_of (emit e).
Proof. intros s b s' E. now inversion E. Qed.
Lemma frame_set_grads g : frame net_of (set_grads g).
Proof. intros s b s' E. now inversion E. Qed.
Lemma frame_set_opt o : frame net_of (set_opt o).
Proof. intros s b s' E. now inversion E. Qed.
Lemma frame_set_grad_enabled b : frame net_of (set_grad_enabled b).
Proof. intros s u s' E. now inversion E. Qed.
Lemma frame_set_fs f : frame net_of (set_fs f).
Proof. intros s u s' E. now inversion E. Qed.

Lemma frame_match_result {X A B} (f : St -> X) (r : result B) (k : B -> M A) :
  (forall b, frame f (k b)) ->
  frame f (match r with Ok b => k b | Err e => raise e end).
Proof. intros Hk. destruct r; [apply Hk | apply frame_raise]. Qed.

Create HintDb frames.
#[local] Hint Resolve frame_bind frame_ret frame_raise frame_get frame_emit
  frame_set_grads frame_set_opt frame_set_grad_enabled frame_set_fs
  frame_match_result : frames.

Ltac frames :=
  repeat first
    [ apply frame_bind; [|intro]
    | apply frame_match_result; intro
    | match goal with |- frame _ (if ?c then _ else _) => destruct c end
    | match goal with |- frame _ (let (_, _) := ?p in _) => destruct p end
    | match goal with |- frame _ (match ?o with Some _ => _ | None => _ end) =>
        destruct o as [[[[? ?] ?] ?]|] end
    | match goal with |- frame _ (match ?o with Some _ => _ | None => _ end) =>
        destruct o end
    | solve [eauto with frames] ].

Lemma frame_require_device d : frame net_of (require_device d).
Proof. unfold require_device. frames. Qed.

Lemma frame_to_device {A} d (t : tensor A) : frame net_of (to_device d t).
Proof. unfold to_device. pose proof (frame_require_device d). frames. Qed.

Lemma frame_call_model bs x : frame net_of (call_model bs x).
Proof. unfold call_model. frames. Qed.

Lemma frame_nll_loss mean og t : frame net_of (nll_loss mean og t).
Proof. unfold nll_loss. destruct og. frames. Qed.

Lemma frame_with_no_grad {A} (body : M A) :
  frame net_of body -> frame net_of (with_no_grad body).
Proof. intro Hb. unfold with_no_grad. frames. Qed.

Lemma frame_fold_batches {X A B} (f : St -> X) (l : list A) (acc : B) body :
  (forall acc x, frame f (body acc x)) ->
  frame f (fold_batches l acc body).
Proof.
  intros Hb. revert acc. induction l as [|x l IH]; intro acc; simpl.
  - apply frame_ret.
  - apply frame_bind; auto.
Qed.

Lemma frame_for_each {X A} (f : St -> X) (l : list A) body :
  (forall x, frame f (body x)) -> frame f (for_each l body).
Proof.
  intros Hb. induction l as [|x l IH]; simpl.
  - apply frame_ret.
  - apply frame_bind; auto.
Qed.

Lemma frame_emit_fc e : frame fs_cuda (emit e).
Proof. intros s b s' E. now inversion E. Qed.
Lemma frame_set_grads_fc g : frame fs_cuda (set_grads g).
Proof. intros s b s' E. now inversion E. Qed.
Lemma frame_set_opt_fc o : frame fs_cuda (set_opt o).
Proof. intros s b s' E. now inversion E. Qed.
Lemma frame_set_grad_enabled_fc b : frame fs_cuda (set_grad_enabled b).
Proof. intros s u s' E. now inversion E. Qed.
Lemma frame_set_net_fc m : frame fs_cuda (set_net m).
Proof. intros s u s' E. now inversion E. Qed.

#[local] Hint Resolve frame_emit_fc frame_set_grads_fc frame_set_opt_fc
  frame_set_grad_enabled_fc frame_set_net_fc : frames.

Lemma frame_test_step bs dev acc b : frame net_of (test_step bs dev acc b).
Proof.
  unfold test_step. destruct b.
  pose proof frame_call_model. pose proof frame_nll_loss.
  pose proof (@frame_to_device R). pose proof (@frame_to_device nat).
  frames.
Qed.

Lemma frame_net_map {X A} (g : SimpleNet -> X) (m : M A) :
  frame net_of m -> frame (fun s => g (net s)) m.
Proof. intros Hm s a s' E. unfold net_of in Hm. now rewrite (Hm _ _ _ E). Qed.

(** [model.eval()] changes the mode, not the parameters. *)
Lemma frame_model_eval : frame params_of model_eval.
Proof. intros s a s' E. cbv in E. inversion E. reflexivity. Qed.

Lemma test_parameters bs dev l :
  frame params_of (test bs dev l).
Proof.
  unfold test. apply frame_bind; [apply frame_model_eval|intros _].
  apply frame_bind.
  - apply (frame_net_map parameters).
    apply frame_with_no_grad, (frame_fold_batches net_of); intros; apply frame_test_step.
  - intros acc. destruct (Nat.eqb _ 0).
    + apply frame_raise.
    + apply (frame_net_map parameters), frame_emit.
Qed.

Lemma get_probs_parameters x0 y0 dev s r s' :
  get_probs x0 y0 dev s = Ok (r, s') ->
  parameters (net s') = map (tensor_to dev) (parameters (net s)).
Proof.
  unfold get_probs. intro E. peel E. apply model_to_ok in Hm as [Hn _].
  assert (Hf : frame net_of (x <- to_device dev x0 ;;
    y <- to_device dev y0 ;;
    output <- with_no_grad (o <- call_model 1 x ;; ret (squeeze (fst o))) ;;
    match index output y with Ok g => ret (output, g) | Err e => raise e end)).
  { pose proof (@frame_to_device R). pose proof (@frame_to_device nat).
    pose proof frame_call_model. frames. }
  apply Hf in Hk. unfold net_of in Hk. rewrite Hk, Hn. reflexivity.
Qed.

Lemma get_probs_ok x0 y0 dev s p g s' :
  get_probs x0 y0 dev s = Ok ((p, g), s') ->
  index p (tensor_to dev y0) = Ok g /\
  exists o, forward batch_size2 (net_to dev (net s)) (tensor_to dev x0) = Ok o /\
            p = squeeze o.
Proof.
  unfold get_probs. intro E.
  unbind E as u s1 E1 E. apply model_to_ok in E1 as [Hn _].
  unbind E as x s2 E2 E. apply to_device_ok in E2 as (-> & Hn2 & _).
  unbind E as y s3 E3 E. apply to_device_ok in E3 as (-> & Hn3 & _).
  unbind E as out s4 E4 E. apply with_no_grad_ok in E4 as (s5 & s6 & Hb & Hn5 & _).
  unbind Hb as og s7 Hc Hr. destruct og as [o gr].
  apply call_model_ok in Hc as [Hf _].
  unfold ret in Hr. inversion Hr; subst.
  destruct (index (squeeze o) (tensor_to dev y0)) as [g'|e] eqn:Ei;
    [|discriminate].
  unfold ret in E. inversion E; subst. split; [exact Ei|].
  exists o. split; [|reflexivity].
  rewrite Hn5, Hn3, Hn2, Hn in Hf. exact Hf.
Qed.

Lemma epoch_loop_fs_cuda bs dev tl tsl : frame fs_cuda (epoch_loop bs dev tl tsl).
Proof.
  unfold epoch_loop. apply frame_for_each. intro ep.
  unfold train, test. frames.
  - apply frame_for_each. intros [d t]. unfold train_step.
    unfold to_device, require_device, zero_grad, call_model, nll_loss, backward, step.
    frames.
  - unfold with_no_grad. frames. apply frame_fold_batches. intros acc [d t].
    unfold test_step, to_device, require_device, call_model, nll_loss. frames.
Qed.

Lemma epochs_params bs dev tl tsl (es : list nat) s s' :
  for_each es (fun epoch =>
      emit (EvPrint (PEpoch epoch)) ;;;
      train bs dev tl epoch ;;;
      test bs dev tsl) s = Ok (tt, s') ->
  map tshape (parameters (net s')) = map tshape (parameters (net s)) /\
  map tdev (parameters (net s')) = map tdev (parameters (net s)).
Proof.
  revert s. induction es as [|e es IH]; intros s E; simpl in E.
  - inversion E; subst. auto.
  - unbind E as u1 s1 E1 E.
    unbind E1 as u2 s2 E2 E1. apply emit_ok in E2 as (N2 & _).
    unbind E1 as u3 s3 E3 E1.
    apply train_ok in E3 as (_ & S3 & D3 & _).
    apply test_ok in E1 as (_ & N1 & _).
    destruct (IH s1 E) as [S D].
    assert (P1 : parameters (net s1) = parameters (net s3)) by (rewrite N1; reflexivity).
    rewrite S, D, P1, S3, D3, N2. auto.
Qed.

(** ** The two notebooks end to end *)

Lemma nb1_devices_ok s dev s' :
  nb1_devices s = Ok (dev, s') ->
  dev = torch_device (device_string (cuda_avail s)) /\ cuda_avail s = true /\
  fs s' = fs s /\ cuda_avail s' = cuda_avail s.
Proof.
  unfold nb1_devices, select_device, get_device_name0, tensor_cuda, cuda_IntTensor.
  unfold_prims. cbn. destruct (cuda_avail s) eqn:C; cbn; intro E; [|discriminate].
  inversion E; subst. cbn. auto.
Qed.

Lemma FashionMNIST_ok root train download s d s' :
  FashionMNIST root train download s = Ok (d, s') ->
  net s' = net s /\ cuda_avail s' = cuda_avail s /\
  (download = false -> s' = s /\ assoc (split_key root train) (fs s) = Some (FDataset d)).
Proof.
  unfold FashionMNIST; unfold_prims. cbn.
  destruct (assoc (split_key root train) (fs s)) as [[sd|d0]|] eqn:A;
    destruct download; intro E; inversion E; subst; cbn;
    (split; [reflexivity|split; [reflexivity|]]); intro Hd; try discriminate; auto.
Qed.

Lemma DataLoader_ok (ds : list (tensor R * nat)) bs s l s' :
  DataLoader ds bs s = Ok (l, s') -> s' = s.
Proof.
  unfold DataLoader. destruct (Nat.eqb bs 0); intro E; inversion E; auto.
Qed.

Lemma nb1_model_and_data_ok dev s ls s' :
  nb1_model_and_data dev s = Ok (ls, s') ->
  net s' = net_to dev SimpleNet_init /\ cuda_avail s' = cuda_avail s /\
  exists d, assoc (split_key "./data" false) (fs s') = Some (FDataset d).
Proof.
  unfold nb1_model_and_data. intro E.
  unbind E as u1 s1 E1 E. inversion E1; subst.
  unbind E as u2 s2 E2 E. apply model_to_ok in E2 as (N2 & _ & _ & C2 & _).
  unbind E as tr s3 E3 E. apply FashionMNIST_ok in E3 as (N3 & C3 & _).
  unbind E as trl s4 E4 E. apply DataLoader_ok in E4. subst s4.
  unbind E as te s5 E5 E. apply FashionMNIST_ok in E5 as (N5 & C5 & H5).
  destruct (H5 eq_refl) as [-> A5].
  unbind E as tel s6 E6 E. apply DataLoader_ok in E6. subst s6.
  inversion E; subst. rewrite N3, N2. cbn in *.
  repeat split; [congruence|]. eexists; exact A5.
Qed.

Lemma assoc_fs_write_eq k (v : file (R := R)) l : assoc k (fs_write k v l) = Some v.
Proof. unfold fs_write. cbn. now rewrite String.eqb_refl. Qed.

Lemma assoc_filter_neq {A} k k' (l : list (string * A)) :
  k <> k' -> assoc k (filter (fun p => negb (String.eqb k' (fst p))) l) = assoc k l.
Proof.
  intro Hk. induction l as [|[k0 v] l IH]; [reflexivity|]. cbn.
  destruct (String.eqb k' k0) eqn:E; cbn.
  - apply String.eqb_eq in E. subst k0.
    apply String.eqb_neq in Hk. rewrite Hk. exact IH.
  - destruct (String.eqb k k0); [reflexivity|exact IH].
Qed.

Lemma assoc_fs_write_neq k k' (v : file (R := R)) l :
  k <> k' -> assoc k (fs_write k' v l) = assoc k l.
Proof.
  intro Hk. unfold fs_write. cbn.
  destruct (String.eqb k k') eqn:E.
  - apply String.eqb_eq in E. contradiction.
  - now apply assoc_filter_neq.
Qed.

Lemma nb2_run files (m : SimpleNet (R := R)) d :
  net_shapes_ok m -> on_dev (CUDA 0) m ->
  assoc weights_path files = Some (FWeights (state_dict m)) ->
  assoc (split_key "./data" false) files = Some (FDataset d) ->
  exists l s2, torch_test_model (fresh_kernel files true) = Ok (l, s2) /\
               parameters (net s2) = parameters m.
Proof.
  intros Hs Hd Hw Ht.
  destruct m as [[i1 o1 [w1 sw1 dw1] [b1 sb1 db1]] [i2 o2 [w2 sw2 dw2] [b2 sb2 db2]] tr].
  unfold net_shapes_ok, on_dev in *. cbn in Hs, Hd.
  injection Hs as -> -> -> ->. injection Hd as -> -> -> ->.
  unfold torch_test_model, select_device, model_to, require_device, torch_load,
    load_state_dict, model_eval, FashionMNIST, DataLoader.
  unfold_prims. cbn -[Nat.mul assoc weights_path split_key].
  rewrite Hw. cbn -[Nat.mul split_key].
  rewrite Ht. cbn -[Nat.mul].
  eexists _, _. split; reflexivity.
Qed.

Lemma adadelta_ok lr s u s' :
  adadelta lr s = Ok (u, s') ->
  net s' = net s /\ fs s' = fs s /\ cuda_avail s' = cuda_avail s.
Proof. unfold adadelta; unfold_prims. cbn. intro E. inversion E; subst. auto. Qed.

Lemma nb1_save_ok s u s' :
  nb1_save s = Ok (u, s') ->
  fs s' = fs_write weights_path (FWeights (state_dict (net s))) (fs s) /\
  net s' = net s /\ cuda_avail s' = cuda_avail s.
Proof. unfold nb1_save, torch_save; unfold_prims. cbn. intro E. inversion E; subst. auto. Qed.

Lemma weights_path_not_data : split_key "./data" false <> weights_path.
Proof. cbv. discriminate. Qed.

(** What the training notebook leaves behind when it runs to the end. *)
Lemma torch_use_gpu_ok s u s1 :
  torch_use_gpu s = Ok (u, s1) ->
  cuda_avail s = true /\ cuda_avail s1 = true /\
  net_shapes_ok (net s1) /\ on_dev (CUDA 0) (net s1) /\
  assoc weights_path (fs s1) = Some (FWeights (state_dict (net s1))) /\
  exists d, assoc (split_key "./data" false) (fs s1) = Some (FDataset d).
Proof.
  unfold torch_use_gpu. intro E.
  unbind E as dev sa Ea E. apply nb1_devices_ok in Ea as (Hdev & Cs & _ & Ca).
  rewrite Cs in Hdev. cbv in Hdev. subst dev.
  unbind E as ls sb Eb E. apply nb1_model_and_data_ok in Eb as (Nb & Cb & d & Db).
  unbind E as u1 sc Ec E. apply adadelta_ok in Ec as (Nc & Fc & Cc).
  unbind E as u2 sd Ed E.
  assert (FCd := epoch_loop_fs_cuda _ _ _ _ _ _ _ Ed). unfold fs_cuda in FCd.
  injection FCd as Fd Cd.
  destruct u2. unfold epoch_loop in Ed. apply epochs_params in Ed as [Sd Dd].
  apply nb1_save_ok in E as (F1 & N1 & C1).
  split; [exact Cs|]. split; [congruence|].
  split; [unfold net_shapes_ok; rewrite N1, Sd, Nc, Nb; reflexivity|].
  split; [unfold on_dev; rewrite N1, Dd, Nc, Nb; reflexivity|].
  split; [rewrite F1, N1; apply assoc_fs_write_eq|].
  exists d. rewrite F1, assoc_fs_write_neq by exact weights_path_not_data.
  rewrite Fd, Fc. exact Db.
Qed.

(** ** Logs and errors of the set-up cells *)

Lemma nb1_devices_log s dev s' :
  nb1_devices s = Ok (dev, s') ->
  exists new, log s' = log s ++ new /\ forall d, Forall (consistent_ev d) new.
Proof.
  unfold nb1_devices, select_device, get_device_name0, tensor_cuda, cuda_IntTensor.
  unfold_prims. cbn. destruct (cuda_avail s); cbn; intro E; [|discriminate].
  inversion E; subst. cbn. eexists. split.
  - rewrite <- !app_assoc. reflexivity.
  - intro d. repeat constructor.
Qed.

Lemma nb1_devices_err s e : nb1_devices s = Err e -> e = NoCudaRuntimeError.
Proof.
  unfold nb1_devices, select_device, get_device_name0, tensor_cuda, cuda_IntTensor.
  unfold_prims. cbn. destruct (cuda_avail s); cbn; intro E; now inversion E.
Qed.

Lemma model_to_err d s e : model_to d s = Err e -> e = NoCudaRuntimeError.
Proof.
  unfold model_to, require_device. unfold_prims. cbn.
  destruct (is_cuda d && negb (cuda_avail s)); intro E; now inversion E.
Qed.

Lemma FashionMNIST_log root train download s d s' :
  FashionMNIST root train download s = Ok (d, s') -> log s' = log s.
Proof.
  unfold FashionMNIST; unfold_prims. cbn.
  destruct (assoc (split_key root train) (fs s)) as [[sd|d0]|];
    destruct download; intro E; inversion E; subst; reflexivity.
Qed.

Lemma FashionMNIST_err root train download s e :
  FashionMNIST root train download s = Err e -> e = DatasetNotFound root.
Proof.
  unfold FashionMNIST; unfold_prims. cbn.
  destruct (assoc (split_key root train) (fs s)) as [[sd|d0]|];
    destruct download; intro E; now inversion E.
Qed.

Lemma DataLoader_err (ds : list (tensor R * nat)) bs s e :
  DataLoader ds bs s = Err e -> e = ValueError.
Proof.
  unfold DataLoader. destruct (Nat.eqb bs 0); intro E; now inversion E.
Qed.

Lemma nb1_model_and_data_log dev s ls s' :
  nb1_model_and_data dev s = Ok (ls, s') -> log s' = log s.
Proof.
  unfold nb1_model_and_data. intro E.
  unbind E as u1 s1 E1 E. inversion E1; subst.
  unbind E as u2 s2 E2 E. apply model_to_ok in E2 as (_ & _ & _ & _ & _ & L2).
  unbind E as tr s3 E3 E. apply FashionMNIST_log in E3.
  unbind E as trl s4 E4 E. apply DataLoader_ok in E4. subst s4.
  unbind E as te s5 E5 E. apply FashionMNIST_log in E5.
  unbind E as tel s6 E6 E. apply DataLoader_ok in E6. subst s6.
  inversion E; subst. rewrite E5, E3, L2. reflexivity.
Qed.

Lemma nb1_model_and_data_err dev s e :
  nb1_model_and_data dev s = Err e -> e <> DeviceMismatchError.
Proof.
  unfold nb1_model_and_data. intro E.
  unbind_err E as u1 s1 E1 E; [discriminate|].
  unbind_err E as u2 s2 E2 E; [apply model_to_err in E; now subst|].
  unbind_err E as tr s3 E3 E; [apply FashionMNIST_err in E; now subst|].
  unbind_err E as trl s4 E4 E; [apply DataLoader_err in E; now subst|].
  unbind_err E as te s5 E5 E; [apply FashionMNIST_err in E; now subst|].
  unbind_err E as tel s6 E6 E; [apply DataLoader_err in E; now subst|].
  discriminate.
Qed.

Lemma adadelta_log lr s u s' : adadelta lr s = Ok (u, s') -> log s' = log s.
Proof. unfold adadelta; unfold_prims. cbn. intro E. inversion E; subst. reflexivity. Qed.

Lemma nb1_save_log s u s' :
  nb1_save s = Ok (u, s') -> log s' = log s ++ [EvSave weights_path].
Proof. unfold nb1_save, torch_save; unfold_prims. cbn. intro E. inversion E; subst. reflexivity. Qed.

Lemma on_dev_net_to d : on_dev d (net_to d SimpleNet_init).
Proof. reflexivity. Qed.

(** * The claims *)

(** C1 (round trip of the weights file).  When the training notebook runs
    to the end, a fresh kernel of the testing notebook started on the files
    it leaves behind (and on the same accelerator) loads
    [mnist_fashion_SimpleNet.pt] into a fresh [SimpleNet] and ends up with
    exactly the parameters the training notebook saved. *)
Theorem weights_round_trip s s1 :
  torch_use_gpu s = Ok (tt, s1) ->
  exists l s2, torch_test_model (fresh_kernel (fs s1) (cuda_avail s1)) = Ok (l, s2) /\
               parameters (net s2) = parameters (net s1).
Proof.
  intro E. apply torch_use_gpu_ok in E as (_ & C1 & Sh & Dv & W & d & Dt).
  rewrite C1. exact (nb2_run (fs s1) (net s1) d Sh Dv W Dt).
Qed.

(** C2 (device selection).  [select_device] returns the device named by
    [device_string (cuda_avail s)]; that string is ["cuda:0"] exactly when an
    accelerator is available and ["cpu"] otherwise, and ["cuda:0"] names the
    first accelerator. *)
Theorem device_selection s :
  (exists s', select_device s = Ok (torch_device (device_string (cuda_avail s)), s')) /\
  (device_string (cuda_avail s) = "cuda:0" <-> cuda_avail s = true) /\
  (device_string (cuda_avail s) = "cpu" <-> cuda_avail s = false) /\
  torch_device (device_string (cuda_avail s)) =
    (if cuda_avail s then CUDA 0 else CPU).
Proof.
  split; [unfold select_device; unfold_prims; cbn; eexists; reflexivity|].
  destruct (cuda_avail s); cbn; repeat split; intro E; congruence.
Qed.

(** C3 (order of the framework calls).  A completed [train] pass logs,
    after [model.train()] and the device print, for each batch of the
    loader exactly the calls of [train_events]: the two moves to the device,
    [zero_grad], the forward call, the loss, [backward] and [step].  A
    completed [test] pass logs [model.eval()], then the entry in [no_grad],
    then for each batch the two moves, a forward call and a loss all with
    gradients off, then the exit from [no_grad] and the report. *)
Theorem training_and_evaluation_order bs dev tl ep s u s' tsl t v t' :
  train bs dev tl ep s = Ok (u, s') ->
  test bs dev tsl t = Ok (v, t') ->
  log s' = log s ++ [EvTrainMode; EvPrint (PDevice dev)] ++
           List.concat (repeat (train_events dev (map tdev (parameters (net s))))
                          (List.length (batches tl))) /\
  exists a c,
    log t' = log t ++ [EvEvalMode; EvNoGrad false] ++
             List.concat (repeat (test_events dev (map tdev (parameters (net t))) false)
                            (List.length (batches tsl))) ++
             [EvNoGrad (grad_enabled t); EvPrint (PTestReport a c (dataset_len tsl))].
Proof.
  intros Etr Ete.
  apply train_ok in Etr as (Ltr & _). apply test_ok in Ete as (Lte & _).
  split; [exact Ltr | exact Lte].
Qed.

(** C4 (the network).  [SimpleNet()] has two linear layers, 784 to 784 and
    784 to 10, with parameters of those shapes; [forward] succeeds exactly when
    the reshape, [fc1], [fc2] after the ReLU and the softmax over dimension 1
    succeed in that order, and returns the softmax; on a well-shaped batch
    of [bs] images it returns a [bs] by 10 tensor on the input's device. *)
Theorem simplenet_structure :
  in_features (fc1 SimpleNet_init) = 784 /\ out_features (fc1 SimpleNet_init) = 784 /\
  in_features (fc2 SimpleNet_init) = 784 /\ out_features (fc2 SimpleNet_init) = 10 /\
  net_shapes_ok SimpleNet_init /\
  (forall bs (m : SimpleNet (R := R)) x y,
     forward bs m x = Ok y <->
     exists x1 x2 x4,
       view bs x = Ok x1 /\ tshape x1 = [bs; numel (tshape x) / bs] /\
       linear (fc1 m) x1 = Ok x2 /\ linear (fc2 m) (relu x2) = Ok x4 /\
       softmax1 x4 = Ok y) /\
  (forall bs (m : SimpleNet (R := R)) (x : tensor R),
     0 < bs -> net_shapes_ok m -> on_dev (tdev x) m -> numel (tshape x) = bs * 784 ->
     exists y, forward bs m x = Ok y /\ tshape y = [bs; 10] /\ tdev y = tdev x).
Proof.
  split; [reflexivity|]. split; [reflexivity|]. split; [reflexivity|].
  split; [reflexivity|]. split; [reflexivity|]. split.
  - intros bs m x y. unfold forward, rbind. split.
    + destruct (view bs x) as [x1|e] eqn:E1; [|discriminate].
      destruct (linear (fc1 m) x1) as [x2|e] eqn:E2; [|discriminate].
      destruct (linear (fc2 m) (relu x2)) as [x4|e] eqn:E3; [|discriminate].
      intro E4. exists x1, x2, x4. repeat split; auto.
      unfold view in E1. destruct (Nat.eqb bs 0); [discriminate|].
      destruct (negb _); [discriminate|]. now inversion E1.
    + intros (x1 & x2 & x4 & E1 & _ & E2 & E3 & E4).
      rewrite E1, E2, E3. exact E4.
  - intros bs m x Hb Hs Hd Hn.
    exact (forward_succ bs (tdev x) m x Hb Hs Hd eq_refl Hn).
Qed.

(** C5 (no handler).  Without the weights file the testing notebook stops
    with [FileNotFoundError]; without an accelerator the training notebook
    stops with the CUDA error, as do [.cuda()] and [torch.cuda.IntTensor];
    and a failing forward pass fails every computation that starts with it,
    whatever follows. *)
Theorem unhandled_errors files cuda s (t : tensor R) xs d s2 bs x e {B}
    (k : tensor R * graph -> M B) :
  assoc weights_path files = None ->
  cuda_avail s = false ->
  forward bs (net s2) x = Err e ->
  torch_test_model (fresh_kernel files cuda) = Err (FileNotFoundError weights_path) /\
  torch_use_gpu s = Err NoCudaRuntimeError /\
  tensor_cuda t s = Err NoCudaRuntimeError /\
  cuda_IntTensor xs d s = Err NoCudaRuntimeError /\
  bind (call_model bs x) k s2 = Err e.
Proof.
  intros Hw Hc He. split; [|split; [|split; [|split]]].
  - unfold torch_test_model, select_device, model_to, require_device, torch_load.
    unfold_prims. destruct cuda; cbn -[Nat.mul assoc weights_path]; rewrite Hw; reflexivity.
  - unfold torch_use_gpu. apply bind_err.
    unfold nb1_devices, select_device, get_device_name0. unfold_prims. cbn.
    rewrite Hc. reflexivity.
  - unfold tensor_cuda. unfold_prims. cbn. rewrite Hc. reflexivity.
  - unfold cuda_IntTensor. unfold_prims. cbn. rewrite Hc. reflexivity.
  - apply bind_err. unfold call_model. unfold_prims. cbn. rewrite He. reflexivity.
Qed.

(** C6 (one device).  A completed run of the training notebook puts the
    model on [cuda:0], the device it selected, and every forward call and
    every loss it logs has its input, its target and all four parameters on
    that device; and no run of the notebook fails with a device mismatch. *)
Theorem device_consistency s s1 :
  torch_use_gpu s = Ok (tt, s1) ->
  torch_device (device_string (cuda_avail s)) = CUDA 0 /\ on_dev (CUDA 0) (net s1) /\
  (exists new, log s1 = log s ++ new /\ Forall (consistent_ev (CUDA 0)) new) /\
  (forall s0 e, torch_use_gpu s0 = Err e -> e <> DeviceMismatchError).
Proof.
  intro E. split; [|split; [|split]].
  - apply torch_use_gpu_ok in E as (C & _). rewrite C. reflexivity.
  - now apply torch_use_gpu_ok in E as (_ & _ & _ & Dv & _).
  - unfold torch_use_gpu in E.
    unbind E as dev sa Ea E.
    destruct (nb1_devices_log _ _ _ Ea) as (na & La & Fa).
    apply nb1_devices_ok in Ea as (Hdev & Cs & _).
    rewrite Cs in Hdev. cbv in Hdev. subst dev.
    unbind E as ls sb Eb E.
    assert (Lb := nb1_model_and_data_log _ _ _ _ Eb).
    apply nb1_model_and_data_ok in Eb as (Nb & _).
    unbind E as u1 sc Ec E.
    assert (Lc := adadelta_log _ _ _ _ Ec). apply adadelta_ok in Ec as (Nc & _).
    unbind E as u2 sd Ed E. destruct u2.
    assert (Lf := nb1_save_log _ _ _ E).
    unfold epoch_loop in Ed. apply epochs_consistent in Ed as (_ & nd & Ld & Fd);
      [|rewrite Nc, Nb; apply on_dev_net_to].
    exists (na ++ nd ++ [EvSave weights_path]). split.
    + rewrite Lf, Ld, Lc, Lb, La. now rewrite <- !app_assoc.
    + apply Forall_app. split; [apply Fa|]. apply Forall_app. split; [exact Fd|].
      repeat constructor.
  - clear. intros s e E. unfold torch_use_gpu in E.
    unbind_err E as dev sa Ea E; [apply nb1_devices_err in E; now subst|].
    assert (Hdev := nb1_devices_ok _ _ _ Ea). destruct Hdev as (Hdev & Cs & _).
    rewrite Cs in Hdev. cbv in Hdev. subst dev.
    unbind_err E as ls sb Eb E; [now apply nb1_model_and_data_err in E|].
    apply nb1_model_and_data_ok in Eb as (Nb & _).
    unbind_err E as u1 sc Ec E; [unfold adadelta in E; unfold_prims; discriminate|].
    apply adadelta_ok in Ec as (Nc & _).
    unbind_err E as u2 sd Ed E.
    + unfold epoch_loop in E. apply epochs_no_dm in E; [exact E|].
      rewrite Nc, Nb. apply on_dev_net_to.
    + unfold nb1_save, torch_save in E. unfold_prims. discriminate.
Qed.

(** C7 (five epochs).  On a well-formed kernel and loaders of well-formed
    batches, the epoch loop of the training notebook returns, and the
    marks of what it logs are, for epochs 1 to 5 in order: the epoch print,
    the start of one training pass, one optimizer step per training batch,
    the start of one evaluation pass and one forward call per test batch. *)
Theorem five_epochs bs dev tl tsl s :
  0 < bs -> kernel_ok dev s -> grad_enabled s = true ->
  Forall (batch_ok bs) (batches tl) -> Forall (batch_ok bs) (batches tsl) ->
  dataset_len tsl <> 0 ->
  exists s', epoch_loop bs dev tl tsl s = Ok (tt, s') /\
    exists new, log s' = log s ++ new /\
      marks new = flat_map (epoch_marks (List.length (batches tl))
                                        (List.length (batches tsl))) [1; 2; 3; 4; 5].
Proof.
  intros Hb Hk Hg Htl Htsl Hn.
  destruct (epochs_ok bs dev tl tsl (seq 1 EPOCHS) s Hb Hk Hg Htl Htsl Hn)
    as (s' & E & _ & _ & new & L & Mk).
  exists s'. split; [exact E|]. exists new. split; [exact L | exact Mk].
Qed.

(** C8 (the two [test] cells).  The first definition of [test] (cell 31)
    and the one that shadows it (cell 32) compute the same thing on every
    batch size, device, loader and kernel state. *)
Theorem test_redefinition_same bs dev l s :
  test_v1 bs dev l s = test bs dev l s.
Proof. reflexivity. Qed.

(** C9 (evaluation and the parameters).  A completed [test] leaves the
    parameters unchanged.  A completed [get_probs] leaves their values and
    shapes unchanged but moves them to [device] ([model.to(device)] is in
    place), so it leaves them unchanged exactly in the case where they were
    already on [device]. *)
Theorem evaluation_parameters :
  (forall bs dev l s u s', test bs dev l s = Ok (u, s') ->
     parameters (net s') = parameters (net s)) /\
  (forall (x : tensor R) y dev s r s', get_probs x y dev s = Ok (r, s') ->
     parameters (net s') = map (tensor_to dev) (parameters (net s)) /\
     map tdata (parameters (net s')) = map tdata (parameters (net s)) /\
     map tshape (parameters (net s')) = map tshape (parameters (net s))) /\
  (forall (x : tensor R) y dev s r s', on_dev dev (net s) ->
     get_probs x y dev s = Ok (r, s') -> parameters (net s') = parameters (net s)).
Proof.
  split; [|split].
  - intros bs dev l s u s' E. exact (test_parameters bs dev l s u s' E).
  - intros x y dev s r s' E. apply get_probs_parameters in E. rewrite E.
    rewrite !map_map. split; [reflexivity|]. split; apply map_ext; reflexivity.
  - intros x y dev s r s' Hd E. apply get_probs_parameters in E. rewrite E.
    unfold on_dev, parameters in *.
    destruct (net s) as [[i1 o1 [w1 sw1 dw1] [b1 sb1 db1]] [i2 o2 [w2 sw2 dw2] [b2 sb2 db2]] tr].
    cbn in *. injection Hd as -> -> -> ->. reflexivity.
Qed.

(** C10 (what [get_probs] returns).  A completed [get_probs x y device]
    returns the squeezed output of the forward pass of the model moved to
    [device] on [x] moved to [device], paired with that output indexed at
    [y] moved to [device]. *)
Theorem get_probs_result (x : tensor R) y dev s p g s' :
  get_probs x y dev s = Ok ((p, g), s') ->
  (exists o, forward batch_size2 (net_to dev (net s)) (tensor_to dev x) = Ok o /\
             p = squeeze o) /\
  index p (tensor_to dev y) = Ok g.
Proof.
  intro E. apply get_probs_ok in E as (Hi & Ho). split; [exact Ho | exact Hi].
Qed.

End Theory.

(** * Further properties of the notebooks' code *)

Section Extras.
Context {R : Type} `{Torch R} `{Autograd R}.
Open Scope list_scope.

Ltac unfold_prims :=
  unfold bind, ret, raise, get, put, emit, set_net, set_grads, set_opt,
    set_grad_enabled, set_fs in *.

Tactic Notation "unbind" hyp(H) "as" ident(a) ident(s1) ident(H1) ident(H2) :=
  apply bind_ok in H; destruct H as (a & s1 & H1 & H2).

(** ** The data loader *)



Lemma batches_of_labels fuel bs (xs : list (tensor R * nat)) :
  0 < bs -> List.length xs <= fuel ->
  flat_map (fun b => tdata (snd b)) (batches_of fuel bs xs) = map snd xs.
Proof.
  intros Hb. revert xs. induction fuel as [|f IH]; intros xs Hl.
  - destruct xs; [reflexivity|cbn in Hl; lia].
  - destruct xs as [|x xs']; [reflexivity|].
    cbn [batches_of flat_map]. unfold collate at 1. cbn [snd tdata].
    rewrite IH by (rewrite length_skipn; cbn [List.length] in *; lia).
    rewrite <- map_app, firstn_skipn. reflexivity.
Qed.


Lemma batches_of_image_shapes fuel bs sh (xs : list (tensor R * nat)) :
  0 < bs ->
  Forall (fun p => tshape (fst p) = sh) xs ->
  Forall (fun b => tshape (fst b) = tshape (snd b) ++ sh) (batches_of fuel bs xs).
Proof.
  intros Hb. revert xs. induction fuel as [|f IH]; intros xs Hs; [constructor|].
  destruct xs as [|x xs']; [constructor|].
  cbn [batches_of]. constructor.
  - unfold collate. destruct bs as [|bs']; [lia|]. cbn.
    inversion Hs; subst. destruct x. reflexivity.
  - apply IH. rewrite Forall_forall in Hs |- *.
    intros y Hy. apply Hs. rewrite <- (firstn_skipn bs (x :: xs')).
    apply in_or_app. right. exact Hy.
Qed.


(** ** The forward pass *)

Lemma softmax_rows_length n k (l : list R) :
  List.length (flat_map softmax_row (chunk n k l)) <= n * k.
Proof.
  revert l. induction n as [|n IH]; intros l; cbn [chunk flat_map]; [cbn; lia|].
  rewrite length_app. unfold softmax_row at 1. rewrite !length_map, length_firstn.
  specialize (IH (skipn k l)). lia.
Qed.

Lemma view_shape bs (x y : tensor R) :
  view bs x = Ok y ->
  bs <> 0 /\ numel (tshape x) mod bs = 0 /\ tshape y = [bs; numel (tshape x) / bs] /\
  tdev y = tdev x.
Proof.
  unfold view. destruct (Nat.eqb_spec bs 0); [discriminate|].
  destruct (Nat.eqb_spec (numel (tshape x) mod bs) 0); [|discriminate].
  intro E; inversion E; subst. cbn. auto.
Qed.

Lemma linear_shape (l : Linear (R := R)) (x y : tensor R) :
  linear l x = Ok y ->
  exists o i n, tshape (weight l) = [o; i] /\ tshape x = [n; i] /\ tshape y = [n; o].
Proof.
  unfold linear. destruct (negb _); [discriminate|].
  destruct (tshape (weight l)) as [|o [|i [|]]]; try discriminate.
  destruct (tshape x) as [|n [|k [|]]]; try discriminate.
  destruct (Nat.eqb_spec k i) as [->|]; [|discriminate].
  intro E; inversion E; subst. cbn. exists o, i, n. auto.
Qed.

Lemma linear_rejects (l : Linear (R := R)) (x : tensor R) o i n k :
  tdev (weight l) = tdev x -> tdev (bias l) = tdev x ->
  tshape (weight l) = [o; i] -> tshape x = [n; k] -> k <> i ->
  linear l x = Err ShapeMismatchError.
Proof.
  intros Dw Db Sw Sx Hk. unfold linear.
  rewrite Dw, Db, device_eqb_refl, Sw, Sx. cbn [andb negb].
  destruct (Nat.eqb_spec k i); [contradiction|]. reflexivity.
Qed.

Lemma softmax1_shape (x y : tensor R) :
  softmax1 x = Ok y ->
  exists n k, tshape x = [n; k] /\ tshape y = [n; k] /\
              tdata y = flat_map softmax_row (chunk n k (tdata x)).
Proof.
  unfold softmax1. destruct (tshape x) as [|n [|k [|]]]; try discriminate.
  intro E; inversion E; subst. cbn. exists n, k. auto.
Qed.

Lemma forward_inv bs (m : SimpleNet (R := R)) x y :
  net_shapes_ok m -> forward bs m x = Ok y ->
  numel (tshape x) = bs * 784 /\ tshape y = [bs; 10] /\ tdev y = tdev x /\
  List.length (tdata y) <= bs * 10.
Proof.
  intros Hs E. pose proof (forward_dev _ _ _ _ E) as Hd.
  unfold net_shapes_ok in Hs; cbn [parameters map] in Hs.
  injection Hs as Sw1 Sb1 Sw2 Sb2.
  unfold forward in E.
  destruct (view bs x) as [x1|] eqn:V; [|discriminate]. cbn [rbind] in E.
  destruct (linear (fc1 m) x1) as [x2|] eqn:L1; [|discriminate]. cbn [rbind] in E.
  destruct (linear (fc2 m) (relu x2)) as [x4|] eqn:L2; [|discriminate]. cbn [rbind] in E.
  apply view_shape in V as (Hb & Hm & Sx1 & _).
  apply linear_shape in L1 as (o1 & i1 & n1 & W1 & X1 & Y1).
  apply linear_shape in L2 as (o2 & i2 & n2 & W2 & X2 & Y2).
  apply softmax1_shape in E as (n & k & X4 & Sy & Dy).
  cbn [relu tshape] in X2.
  rewrite Sw1 in W1. rewrite Sw2 in W2. injection W1 as <- <-. injection W2 as <- <-.
  rewrite Sx1 in X1. injection X1 as <- Hq.
  rewrite Y1 in X2. injection X2 as <-.
  rewrite Y2 in X4. injection X4 as <- <-.
  split; [|split; [exact Sy|split; [exact Hd|]]].
  - rewrite (Nat.div_mod_eq (numel (tshape x)) bs), Hm, Hq. lia.
  - rewrite Dy. apply softmax_rows_length.
Qed.

Lemma forward_rejects bs (m : SimpleNet (R := R)) x :
  0 < bs -> net_shapes_ok m -> on_dev (tdev x) m -> numel (tshape x) <> bs * 784 ->
  forward bs m x = Err ShapeMismatchError.
Proof.
  intros Hb Hs Hd Hn.
  unfold net_shapes_ok, on_dev in *; cbn [parameters map] in Hs, Hd.
  injection Hs as Sw1 Sb1 Sw2 Sb2. injection Hd as Dw1 Db1 Dw2 Db2.
  unfold forward.
  destruct (Nat.eqb_spec (numel (tshape x) mod bs) 0) as [Hm|Hm].
  - assert (V : view bs x = Ok (mkTensor (tdata x) [bs; numel (tshape x) / bs] (tdev x))).
    { unfold view. destruct (Nat.eqb_spec bs 0); [lia|].
      rewrite Hm. reflexivity. }
    rewrite V. cbn [rbind].
    rewrite (linear_rejects (fc1 m) _ 784 784 bs (numel (tshape x) / bs)); auto.
    intro Hq. apply Hn. rewrite (Nat.div_mod_eq (numel (tshape x)) bs), Hm, Hq. lia.
  - unfold view. destruct (Nat.eqb_spec bs 0); [lia|].
    destruct (Nat.eqb_spec (numel (tshape x) mod bs) 0); [contradiction|]. reflexivity.
Qed.

(** ** Training and evaluation on the loader's batches *)

Lemma call_model_fail bs x s e :
  forward bs (net s) x = Err e -> call_model bs x s = Err e.
Proof. intro F. unfold call_model; unfold_prims. cbn. rewrite F. reflexivity. Qed.

Lemma with_no_grad_fail {A} (body : M A) s e :
  body (mkSt (fs s) (cuda_avail s) (net s) (grads s) (opt s) false
             (log s ++ [EvNoGrad false])) = Err e ->
  with_no_grad body s = Err e.
Proof. intro E. unfold with_no_grad; unfold_prims. cbn. rewrite E. reflexivity. Qed.

Lemma train_step_rejects bs dev (b : tensor R * tensor nat) s :
  0 < bs -> kernel_ok dev s -> numel (tshape (fst b)) <> bs * 784 ->
  train_step bs dev b s = Err ShapeMismatchError.
Proof.
  intros Hbs (Ks & Kd & Kc) Hn. destruct b as [d0 t0]. cbn [fst] in Hn.
  unfold train_step.
  destruct (to_device_succ dev d0 s Kc) as [s1 E1]. rewrite (bind_succ _ _ _ _ _ E1).
  apply to_device_ok in E1 as (_ & N1 & G1 & C1 & _).
  destruct (to_device_succ dev t0 s1) as [s2 E2]; [rewrite C1; exact Kc|].
  rewrite (bind_succ _ _ _ _ _ E2).
  apply to_device_ok in E2 as (_ & N2 & G2 & C2 & _).
  destruct (zero_grad_succ s2) as [s3 E3]. rewrite (bind_succ _ _ _ _ _ E3).
  apply zero_grad_ok in E3 as (N3 & G3 & C3 & _).
  apply bind_err, call_model_fail, forward_rejects; auto.
  - rewrite N3, N2, N1. exact Ks.
  - rewrite N3, N2, N1. exact Kd.
Qed.

Lemma test_step_rejects bs dev acc (b : tensor R * tensor nat) s :
  0 < bs -> kernel_ok dev s -> numel (tshape (fst b)) <> bs * 784 ->
  test_step bs dev acc b s = Err ShapeMismatchError.
Proof.
  intros Hbs (Ks & Kd & Kc) Hn. destruct b as [d0 t0]. cbn [fst] in Hn.
  unfold test_step.
  destruct (to_device_succ dev d0 s Kc) as [s1 E1]. rewrite (bind_succ _ _ _ _ _ E1).
  apply to_device_ok in E1 as (_ & N1 & G1 & C1 & _).
  destruct (to_device_succ dev t0 s1) as [s2 E2]; [rewrite C1; exact Kc|].
  rewrite (bind_succ _ _ _ _ _ E2).
  apply to_device_ok in E2 as (_ & N2 & G2 & C2 & _).
  apply bind_err, call_model_fail, forward_rejects; auto.
  - rewrite N2, N1. exact Ks.
  - rewrite N2, N1. exact Kd.
Qed.

Lemma collate_full bs (xs : list (tensor R * nat)) :
  0 < bs -> bs <= List.length xs -> Forall sample_ok xs ->
  batch_ok bs (collate (firstn bs xs)).
Proof.
  intros Hb Hl Hs. destruct xs as [|x xs']; [cbn in Hl; lia|].
  destruct bs as [|bs']; [lia|].
  assert (Hf : Forall sample_ok (firstn (S bs') (x :: xs'))).
  { rewrite Forall_forall in Hs |- *. intros y Hy. apply Hs.
    rewrite <- (firstn_skipn (S bs') (x :: xs')). apply in_or_app. now left. }
  assert (Hlen : List.length (firstn (S bs') (x :: xs')) = S bs')
    by (rewrite length_firstn; lia).
  inversion Hs as [|? ? [Sx _] _]; subst.
  unfold collate, batch_ok. cbn [firstn]. destruct x as [img lab]. cbn [fst snd] in *.
  cbn [tshape tdata]. rewrite <- Hlen. cbn [firstn] in Hlen |- *. rewrite Sx.
  split; [|split; [reflexivity|split; [now rewrite length_map|]]].
  - cbn [numel fold_right]. lia.
  - apply forallb_forall. intros y Hy. apply in_map_iff in Hy as ([i l] & <- & Hi).
    rewrite Forall_forall in Hf. destruct (Hf (i, l)) as [_ Hl']; [exact Hi|].
    apply Nat.ltb_lt. exact Hl'.
Qed.

Lemma collate_partial bs (xs : list (tensor R * nat)) :
  List.length xs < bs -> xs <> [] -> Forall sample_ok xs ->
  numel (tshape (fst (collate (firstn bs xs)))) <> bs * 784.
Proof.
  intros Hl Hne Hs. destruct xs as [|[img lab] xs']; [contradiction|].
  rewrite firstn_all2 by lia. inversion Hs as [|? ? [Sx _] _]; subst. cbn [fst] in Sx.
  unfold collate. cbn [tshape fst]. rewrite Sx. cbn [numel fold_right].
  cbn [List.length] in *. lia.
Qed.

Lemma Forall_skipn_of {A} (P : A -> Prop) n (l : list A) : Forall P l -> Forall P (skipn n l).
Proof.
  rewrite !Forall_forall. intros Hl y Hy. apply Hl.
  rewrite <- (firstn_skipn n l). apply in_or_app. now right.
Qed.

Lemma mod_sub_step L bs : 0 < bs -> bs <= L -> (L - bs) mod bs = L mod bs.
Proof.
  intros Hb Hl. replace L with ((L - bs) + 1 * bs) at 2 by lia.
  symmetry. apply Nat.Div0.mod_add.
Qed.

Lemma parameters_net_eval (m : SimpleNet (R := R)) : parameters (net_eval m) = parameters m.
Proof. reflexivity. Qed.

Lemma parameters_net_train (m : SimpleNet (R := R)) : parameters (net_train m) = parameters m.
Proof. reflexivity. Qed.

Lemma train_batches_rejects fuel bs dev (xs : list (tensor R * nat)) s :
  0 < bs -> List.length xs <= fuel -> Forall sample_ok xs ->
  List.length xs mod bs <> 0 -> kernel_ok dev s -> grad_enabled s = true ->
  for_each (batches_of fuel bs xs) (train_step bs dev) s = Err ShapeMismatchError.
Proof.
  intros Hb. revert xs s. induction fuel as [|f IH]; intros xs s Hl Hs Hm K G.
  - destruct xs; [|cbn in Hl; lia].
    cbn [List.length] in Hm. rewrite Nat.Div0.mod_0_l in Hm. contradiction.
  - destruct xs as [|x xs'].
    { cbn [List.length] in Hm. rewrite Nat.Div0.mod_0_l in Hm. contradiction. }
    cbn [batches_of for_each].
    destruct (Nat.lt_ge_cases (List.length (x :: xs')) bs) as [Hlt|Hge].
    + apply bind_err. apply train_step_rejects; auto.
      apply collate_partial; auto. discriminate.
    + destruct (train_step_succ bs dev (collate (firstn bs (x :: xs'))) s) as [s1 E1];
        auto using collate_full.
      rewrite (bind_succ _ _ _ _ _ E1).
      apply train_step_ok in E1 as (_ & _ & (ds & N1) & G1 & C1).
      apply IH.
      * rewrite length_skipn. cbn [List.length] in *. lia.
      * now apply Forall_skipn_of.
      * rewrite length_skipn, mod_sub_step; auto.
      * eapply kernel_ok_step; eauto.
      * congruence.
Qed.

Lemma test_batches_rejects fuel bs dev (xs : list (tensor R * nat)) acc s :
  0 < bs -> List.length xs <= fuel -> Forall sample_ok xs ->
  List.length xs mod bs <> 0 -> kernel_ok dev s ->
  fold_batches (batches_of fuel bs xs) acc (test_step bs dev) s = Err ShapeMismatchError.
Proof.
  intros Hb. revert xs acc s. induction fuel as [|f IH]; intros xs acc s Hl Hs Hm K.
  - destruct xs; [|cbn in Hl; lia].
    cbn [List.length] in Hm. rewrite Nat.Div0.mod_0_l in Hm. contradiction.
  - destruct xs as [|x xs'].
    { cbn [List.length] in Hm. rewrite Nat.Div0.mod_0_l in Hm. contradiction. }
    cbn [batches_of fold_batches].
    destruct (Nat.lt_ge_cases (List.length (x :: xs')) bs) as [Hlt|Hge].
    + apply bind_err. apply test_step_rejects; auto.
      apply collate_partial; auto. discriminate.
    + destruct (test_step_succ bs dev acc (collate (firstn bs (x :: xs'))) s)
        as (acc1 & s1 & E1); auto using collate_full.
      rewrite (bind_succ _ _ _ _ _ E1).
      apply test_step_ok in E1 as (_ & N1 & G1 & C1).
      apply IH.
      * rewrite length_skipn. cbn [List.length] in *. lia.
      * now apply Forall_skipn_of.
      * rewrite length_skipn, mod_sub_step; auto.
      * destruct K as (Ks & Kd & Kc). unfold kernel_ok. rewrite N1, C1. auto.
Qed.

Lemma DataLoader_inv (ds : list (tensor R * nat)) bs s l s' :
  DataLoader ds bs s = Ok (l, s') ->
  0 < bs /\ l = mkLoader (batches_of (List.length ds) bs ds) (List.length ds) /\ s' = s.
Proof.
  unfold DataLoader. destruct (Nat.eqb_spec bs 0); intro E; [discriminate|].
  unfold ret in E. inversion E; subst. split; [lia|auto].
Qed.

Lemma batches_of_full fuel bs (xs : list (tensor R * nat)) :
  0 < bs -> List.length xs <= fuel -> Forall sample_ok xs ->
  List.length xs mod bs = 0 -> Forall (batch_ok bs) (batches_of fuel bs xs).
Proof.
  intros Hb. revert xs. induction fuel as [|f IH]; intros xs Hl Hs Hm; [constructor|].
  destruct xs as [|x xs']; [constructor|].
  cbn [batches_of].
  assert (Hge : bs <= List.length (x :: xs')).
  { destruct (Nat.lt_ge_cases (List.length (x :: xs')) bs) as [Hlt|]; [|assumption].
    rewrite Nat.mod_small in Hm by exact Hlt. cbn [List.length] in Hm. discriminate. }
  constructor; [apply collate_full; auto|].
  apply IH.
  - rewrite length_skipn. cbn [List.length] in *. lia.
  - now apply Forall_skipn_of.
  - rewrite length_skipn, mod_sub_step; auto.
Qed.

Lemma count_eq_le p t : count_eq p t <= List.length t.
Proof.
  unfold count_eq. transitivity (List.length (combine p t)).
  - apply filter_length_le.
  - rewrite length_combine. lia.
Qed.

Lemma test_step_count bs dev acc (b : tensor R * tensor nat) s r s' :
  test_step bs dev acc b s = Ok (r, s') ->
  snd r <= snd acc + List.length (tdata (snd b)).
Proof.
  unfold test_step. destruct b as [data0 target0]. intro E.
  unbind E as data s1 E1 E. apply to_device_ok in E1 as (-> & _).
  unbind E as target s2 E2 E. apply to_device_ok in E2 as (-> & _).
  unbind E as og s4 E4 E.
  unbind E as l s5 E5 E. unfold ret in E. inversion E; subst. cbn [snd].
  pose proof (count_eq_le (argmax1 (fst og)) (tdata (tensor_to dev target0))). cbn in *. lia.
Qed.

Lemma fold_test_count bs dev (l : list (tensor R * tensor nat)) acc s r s' :
  fold_batches l acc (test_step bs dev) s = Ok (r, s') ->
  snd r <= snd acc + List.length (flat_map (fun b => tdata (snd b)) l).
Proof.
  revert acc s. induction l as [|b l IH]; intros acc s E; cbn [fold_batches] in E.
  - unfold ret in E. inversion E; subst. cbn. lia.
  - unbind E as acc1 s1 E1 E. apply test_step_count in E1. apply IH in E.
    cbn [flat_map]. rewrite length_app. lia.
Qed.

Lemma sub_shapes (m : SimpleNet (R := R)) (d : device) :
  net_shapes_ok (net_to d m) <-> net_shapes_ok m.
Proof. unfold net_shapes_ok. reflexivity. Qed.

(** ** Loading and saving *)

Lemma copy_param_ok (p : tensor R) src :
  (exists q, copy_param p src = Ok q) <-> exists t, src = Some t /\ tshape t = tshape p.
Proof.
  unfold copy_param. destruct src as [t|].
  - destruct (list_eq_dec Nat.eq_dec (tshape t) (tshape p)) as [Ht|Ht].
    + split; intros _; eauto.
    + split; [intros [q Hq]; discriminate|intros (t' & Et & Ht'); injection Et as <-; contradiction].
  - split; [intros [q Hq]; discriminate|intros (t' & Et & _); discriminate].
Qed.

Lemma keys_ok_iff (sd : list (string * tensor R)) :
  forallb (fun p => existsb (String.eqb (fst p)) sd_keys) sd = true <->
  (forall p, In p sd -> In (fst p) sd_keys).
Proof.
  rewrite forallb_forall. split; intros Hk p Hp; specialize (Hk p Hp).
  - apply existsb_exists in Hk as (k & Hin & Ek). apply String.eqb_eq in Ek. now rewrite Ek.
  - apply existsb_exists. exists (fst p). split; [exact Hk|apply String.eqb_refl].
Qed.


(** ** Inference *)




Lemma squeeze_1_10 (o : tensor R) : tshape o = [1; 10] -> tshape (squeeze o) = [10].
Proof. intro So. unfold squeeze. cbn [tshape]. rewrite So. reflexivity. Qed.

Fixpoint argmax_from_bound i best (bv : R) r :
  best < i -> argmax_from i best bv r < i + List.length r.
Proof.
  destruct r as [|v r']; intro Hb; cbn [argmax_from List.length].
  - lia.
  - destruct (rltb bv v).
    + specialize (argmax_from_bound (S i) i v r'). lia.
    + specialize (argmax_from_bound (S i) best bv r'). lia.
Qed.

Lemma argmax_row_bound (r : list R) : r <> [] -> argmax_row r < List.length r.
Proof.
  destruct r as [|v r']; [contradiction|]. intros _. unfold argmax_row.
  pose proof (argmax_from_bound 1 0 v r'). cbn [List.length]. lia.
Qed.

Lemma argmax_row_small (r : list R) n :
  List.length r <= S n -> argmax_row r < S n.
Proof.
  destruct r as [|v r']; [cbn; lia|]. intro Hl.
  assert (Hne : v :: r' <> []) by discriminate.
  pose proof (argmax_row_bound (v :: r') Hne). lia.
Qed.

Lemma dict_get_labels k : k < 10 ->
  exists name, dict_get k labels_map = Some name /\ In name (map snd labels_map).
Proof.
  intro Hk.
  do 10 (destruct k as [|k]; [eexists; split; [reflexivity|cbn; tauto]|]). lia.
Qed.

Lemma item_in {A} (t : tensor A) v : item t = Ok v -> In v (tdata t).
Proof.
  unfold item. destruct (Nat.eqb _ 1); [|discriminate].
  destruct (tdata t) as [|w l]; [discriminate|]. intro E; injection E as <-. now left.
Qed.

Lemma squeeze0_data {A} (t : tensor A) : tdata (squeeze0 t) = tdata t.
Proof. unfold squeeze0. destruct (tshape t) as [|[|[|]] ?]; reflexivity. Qed.










(** ** Further properties of the notebooks' code *)


(** X2 (stacked images).  When every image of [ds] has shape [sh], every
    batch of [DataLoader(ds, bs)] holds an image tensor of shape [k :: sh],
    [k] being the number of labels of the batch. *)
Theorem DataLoader_image_shapes (ds : list (tensor R * nat)) bs sh s l s' :
  DataLoader ds bs s = Ok (l, s') ->
  Forall (fun p => tshape (fst p) = sh) ds ->
  Forall (fun b => tshape (fst b) = tshape (snd b) ++ sh) (batches l).
Proof.
  intros E Hs. apply DataLoader_inv in E as (Hb & -> & _). cbn [batches].
  apply batches_of_image_shapes; assumption.
Qed.

(** X3 (what [forward] accepts).  For a positive batch size [bs] and a
    model with the shapes of [SimpleNet()] on the input's device,
    [forward] succeeds exactly on inputs of [bs * 784] elements, with an
    output of shape [bs; 10] on the same device; any other input raises
    a shape error, whatever its shape. *)
Theorem forward_input_check bs (m : SimpleNet (R := R)) x :
  0 < bs -> net_shapes_ok m -> on_dev (tdev x) m ->
  (numel (tshape x) = bs * 784 ->
     exists y, forward bs m x = Ok y /\ tshape y = [bs; 10] /\ tdev y = tdev x) /\
  (numel (tshape x) <> bs * 784 -> forward bs m x = Err ShapeMismatchError).
Proof.
  intros Hb Hs Hd. split.
  - intro Hn. destruct (forward_succ bs (tdev x) m x Hb Hs Hd eq_refl Hn) as (y & F & Sy & Dy).
    now exists y.
  - intro Hn. now apply forward_rejects.
Qed.

(** X4 (what [forward] returns).  Whenever [forward bs m x] succeeds on a
    model with the shapes of [SimpleNet()], the input had [bs * 784]
    elements and the output has shape [bs; 10], sits on the input's device
    and holds at most [bs * 10] values. *)
Theorem forward_output bs (m : SimpleNet (R := R)) x y :
  net_shapes_ok m -> forward bs m x = Ok y ->
  numel (tshape x) = bs * 784 /\ tshape y = [bs; 10] /\ tdev y = tdev x /\
  List.length (tdata y) <= bs * 10.
Proof. exact (forward_inv bs m x y). Qed.

(** X5 (a partial last batch is fatal).  [forward] reshapes with the
    global [batch_size]; so when the dataset size is not a multiple of the
    batch size, the last batch of the loader makes both [train] and [test]
    raise a shape error, for samples of shape [1; 28; 28] with labels below
    10 on a well-formed kernel (all earlier batches go through). *)
Theorem partial_last_batch (ds : list (tensor R * nat)) bs dev ep s0 l s1 s :
  DataLoader ds bs s0 = Ok (l, s1) -> Forall sample_ok ds ->
  List.length ds mod bs <> 0 -> kernel_ok dev s -> grad_enabled s = true ->
  train bs dev l ep s = Err ShapeMismatchError /\ test bs dev l s = Err ShapeMismatchError.
Proof.
  intros E Hs Hm K G. apply DataLoader_inv in E as (Hb & -> & _).
  destruct K as (Ks & Kd & Kc). split.
  - unfold train.
    assert (E1 : model_train s = Ok (tt, mkSt (fs s) (cuda_avail s) (net_train (net s))
                    (grads s) (opt s) (grad_enabled s) (log s ++ [EvTrainMode])))
      by reflexivity.
    rewrite (bind_succ _ _ _ _ _ E1).
    unfold bind at 1. unfold emit at 1. cbn beta iota.
    apply train_batches_rejects; auto.
    unfold kernel_ok, net_shapes_ok, on_dev. cbn [net cuda_avail].
    rewrite parameters_net_train. auto.
  - unfold test.
    assert (E1 : model_eval s = Ok (tt, mkSt (fs s) (cuda_avail s) (net_eval (net s))
                    (grads s) (opt s) (grad_enabled s) (log s ++ [EvEvalMode])))
      by reflexivity.
    rewrite (bind_succ _ _ _ _ _ E1).
    apply bind_err, with_no_grad_fail. cbn [batches].
    apply test_batches_rejects; auto.
    unfold kernel_ok, net_shapes_ok, on_dev. cbn [net cuda_avail].
    rewrite parameters_net_eval. auto.
Qed.

(** X6 (whole batches go through).  When the dataset is non-empty and its
    size is a multiple of the batch size, with samples of shape [1; 28; 28]
    and labels below 10, a training pass and an evaluation pass over the
    loader both complete on a well-formed kernel with gradients on. *)
Theorem whole_batches_run (ds : list (tensor R * nat)) bs dev ep s0 l s1 s :
  DataLoader ds bs s0 = Ok (l, s1) -> Forall sample_ok ds ->
  List.length ds mod bs = 0 -> ds <> [] -> kernel_ok dev s -> grad_enabled s = true ->
  (exists s', train bs dev l ep s = Ok (tt, s')) /\ (exists s', test bs dev l s = Ok (tt, s')).
Proof.
  intros E Hs Hm Hne K G. apply DataLoader_inv in E as (Hb & -> & _).
  assert (F : Forall (batch_ok bs) (batches_of (List.length ds) bs ds))
    by (apply batches_of_full; auto).
  split.
  - apply train_succ; auto.
  - apply test_succ; auto. cbn [dataset_len]. destruct ds; [contradiction|discriminate].
Qed.

(** X7 (the accuracy never exceeds the dataset).  An evaluation pass over
    a loader of [DataLoader(ds, bs)] that completes ends its log with a
    report of [c] correct predictions out of [len ds], and [c <= len ds]. *)
Theorem test_report_bound (ds : list (tensor R * nat)) bs s0 l s1 dev s u s' :
  DataLoader ds bs s0 = Ok (l, s1) -> test bs dev l s = Ok (u, s') ->
  exists pre v c, log s' = pre ++ [EvPrint (PTestReport v c (List.length ds))] /\
                  c <= List.length ds.
Proof.
  intros E T. apply DataLoader_inv in E as (Hb & -> & _).
  unfold test in T.
  unbind T as u1 s2 E1 T.
  unbind T as acc s3 E2 T.
  apply with_no_grad_ok in E2 as (s4 & s5 & Hb' & _).
  apply fold_test_count in Hb'. cbn [batches dataset_len] in *.
  rewrite batches_of_labels, length_map in Hb' by auto.
  destruct (Nat.eqb _ 0); [discriminate|].
  apply emit_ok in T as (_ & _ & _ & _ & L).
  exists (log s3), (rdiv (fst acc) (r_of_nat (List.length ds))), (snd acc).
  split; [exact L|]. cbn in Hb'. exact Hb'.
Qed.

(** X8 (one update per batch, from that batch alone).  A training step
    that completes leaves in [.grad] exactly the gradient of the current
    batch (the one [zero_grad] cleared the slot for), and the new
    optimizer state and parameters are the Adadelta update of the old ones
    with that gradient. *)
Theorem train_step_update bs dev d0 t0 s u s' :
  train_step bs dev (d0, t0) s = Ok (u, s') ->
  let g := nll_grad bs (net s) (tensor_to dev d0) (tensor_to dev t0) in
  let r := step_all (opt s) (map tdata (parameters (net s))) g in
  grads s' = Some g /\ opt s' = fst r /\ net s' = set_params_data (net s) (snd r).
Proof.
  unfold train_step, to_device, require_device, zero_grad, call_model, nll_loss,
    backward, step; unfold_prims. cbn. intro E.
  destruct (is_cuda dev && negb (cuda_avail s)) eqn:Hc; cbn in E; [discriminate|].
  rewrite Hc in E. cbn in E.
  destruct (forward _ _ _); cbn in E; [|discriminate].
  destruct (nll_sum _ _); cbn in E; [|discriminate].
  destruct (grad_enabled s); cbn in E; [|discriminate].
  inversion E; subst. cbn. auto.
Qed.


(** X10 (when [load_state_dict] accepts).  [model.load_state_dict(sd)]
    succeeds exactly when every key of [sd] is one of the four parameter
    names of [SimpleNet] and each of the four names is bound in [sd] to a
    tensor of the shape of the model's parameter of that name. *)
Theorem load_state_dict_accepts (m : SimpleNet (R := R)) sd :
  (exists m', load_state_dict_pure m sd = Ok m') <->
  (forall p, In p sd -> In (fst p) sd_keys) /\
  (forall k, In k sd_keys -> exists t p,
     assoc k sd = Some t /\ assoc k (state_dict m) = Some p /\ tshape t = tshape p).
Proof.
  unfold load_state_dict_pure.
  destruct (forallb (fun p => existsb (String.eqb (fst p)) sd_keys) sd) eqn:F.
  - pose proof (proj1 (keys_ok_iff sd) F) as Fk. cbn [negb]. split.
    + intros [m' E]. split; [exact Fk|].
      destruct (copy_param (weight (fc1 m)) (assoc "fc1.weight" sd)) as [w1|] eqn:C1;
        [|discriminate]. cbn [rbind] in E.
      destruct (copy_param (bias (fc1 m)) (assoc "fc1.bias" sd)) as [b1|] eqn:C2;
        [|discriminate]. cbn [rbind] in E.
      destruct (copy_param (weight (fc2 m)) (assoc "fc2.weight" sd)) as [w2|] eqn:C3;
        [|discriminate]. cbn [rbind] in E.
      destruct (copy_param (bias (fc2 m)) (assoc "fc2.bias" sd)) as [b2|] eqn:C4;
        [|discriminate].
      intros k Hk. cbn [sd_keys In] in Hk.
      destruct Hk as [<-|[<-|[<-|[<-|[]]]]].
      * destruct (proj1 (copy_param_ok _ _) (ex_intro _ _ C1)) as (t & At & St).
        exists t, (weight (fc1 m)). auto.
      * destruct (proj1 (copy_param_ok _ _) (ex_intro _ _ C2)) as (t & At & St).
        exists t, (bias (fc1 m)). auto.
      * destruct (proj1 (copy_param_ok _ _) (ex_intro _ _ C3)) as (t & At & St).
        exists t, (weight (fc2 m)). auto.
      * destruct (proj1 (copy_param_ok _ _) (ex_intro _ _ C4)) as (t & At & St).
        exists t, (bias (fc2 m)). auto.
    + intros [_ Hk].
      assert (G : forall k p, In k sd_keys -> assoc k (state_dict m) = Some p ->
                  exists q, copy_param p (assoc k sd) = Ok q).
      { intros k p Hin Ap. destruct (Hk k Hin) as (t & p' & At & Ap' & St).
        rewrite Ap in Ap'. injection Ap' as <-.
        apply copy_param_ok. eauto. }
      destruct (G "fc1.weight" (weight (fc1 m))) as [w1 C1]; [cbn; tauto|reflexivity|].
      destruct (G "fc1.bias" (bias (fc1 m))) as [b1 C2]; [cbn; tauto|reflexivity|].
      destruct (G "fc2.weight" (weight (fc2 m))) as [w2 C3]; [cbn; tauto|reflexivity|].
      destruct (G "fc2.bias" (bias (fc2 m))) as [b2 C4]; [cbn; tauto|reflexivity|].
      rewrite C1, C2, C3, C4. cbn [rbind]. eexists; reflexivity.
  - cbn [negb]. split; [intros [m' E]; discriminate|].
    intros [Hk _]. pose proof (proj2 (keys_ok_iff sd) Hk). congruence.
Qed.

(** X11 (save then load).  After [torch.save(sd, path)], [torch.load(path)]
    returns [sd] itself, unless [sd] holds a CUDA tensor and the kernel has
    no accelerator, in which case it raises the CUDA deserialisation error. *)
Theorem save_load_round_trip sd path s u s1 :
  torch_save sd path s = Ok (u, s1) ->
  (existsb (fun p => is_cuda (tdev (snd p))) sd && negb (cuda_avail s) = false ->
     exists s2, torch_load path s1 = Ok (sd, s2)) /\
  (existsb (fun p => is_cuda (tdev (snd p))) sd && negb (cuda_avail s) = true ->
     torch_load path s1 = Err CudaDeserializeError).
Proof.
  unfold torch_save; unfold_prims. intro E. injection E as <- <-.
  unfold torch_load; unfold_prims. cbn [fs cuda_avail].
  rewrite assoc_fs_write_eq. split; intro C; rewrite C; [eexists|]; reflexivity.
Qed.



(** X14 (cell 15 never raises [KeyError]).  With a model of the shapes of
    [SimpleNet()], cell 15 of torch-test-model never fails on a dictionary
    lookup of [labels_map], whatever the iterator holds: the argmax of the ten
    probabilities is a key, and a label outside 0..9 is already rejected by
    [output[y]] inside [get_probs]. *)
Theorem cell15_no_key_error it dev s k :
  net_shapes_ok (net s) -> cell15 it dev s <> @CErr _ (KeyError k).
Proof.
  intro Hs. destruct it as [|[image0 label] rest]; [discriminate|]. unfold cell15.
  destruct (get_probs (squeeze0 image0) label dev s) as [[[probs g] s1]|e] eqn:G;
    [|discriminate].
  apply get_probs_ok in G as (Hi & o & F & ->).
  destruct (forward_inv batch_size2 _ _ _ (proj2 (sub_shapes (net s) dev) Hs) F)
    as (_ & So & _ & Lo).
  unfold batch_size2 in So, Lo.
  assert (Sq : tshape (squeeze o) = [10]) by (apply squeeze_1_10; exact So).
  unfold index in Hi. rewrite Sq in Hi.
  destruct (negb (_ || _)); [discriminate|].
  destruct (forallb (fun i => Nat.ltb i 10) (tdata (tensor_to dev label))) eqn:Hl;
    [|discriminate].
  cbn [negb] in Hi.
  destruct (view_dims [28; 28] (squeeze0 image0)); cbn [lift cbind]; [|discriminate].
  assert (Ha : argmax_row (tdata (squeeze o)) < 10).
  { apply argmax_row_small. unfold squeeze. cbn [tdata]. lia. }
  destruct (dict_get_labels _ Ha) as (pn & Hp & _). rewrite Hp.
  destruct (c <-? int_index (squeeze o) (argmax_row (tdata (squeeze o))) ;; item c);
    cbn [lift cbind]; [|discriminate].
  destruct (item label) as [y|] eqn:Hy; cbn [lift cbind]; [|discriminate].
  apply item_in in Hy.
  rewrite forallb_forall in Hl. specialize (Hl y Hy). apply Nat.ltb_lt in Hl.
  destruct (dict_get_labels _ Hl) as (cn & Hc & _). rewrite Hc. discriminate.
Qed.

Lemma dict_get_nth k : k < 10 ->
  dict_get k labels_map = Some (nth k (map snd labels_map) "").
Proof.
  intro Hk. do 10 (destruct k as [|k]; [reflexivity|]). lia.
Qed.



(** X16 (the titles of the figure cell).  On a training set whose images
    hold 784 values and whose labels are below 10, the plotting loop of the
    figure cell succeeds for any indices drawn below [len(trainset)], and the
    title of each subplot is the [labels_map] name of the label of the sample
    at that index. *)
Theorem plot_samples_titles (trainset : list (tensor R * nat)) idxs :
  Forall (fun p => numel (tshape (fst p)) = 784 /\ snd p < 10) trainset ->
  Forall (fun i => i < List.length trainset) idxs ->
  exists titles, plot_samples trainset idxs = @COk _ titles /\
    Forall2 (fun i t => exists img lab, nth_error trainset i = Some (img, lab) /\
                          t = nth lab (map snd labels_map) "") idxs titles.
Proof.
  intros Ht Hi. induction Hi as [|i idxs Hi Hr IH].
  - exists []. split; [reflexivity|constructor].
  - destruct IH as (titles & E & F).
    destruct (nth_error trainset i) as [[img lab]|] eqn:N;
      [|apply nth_error_None in N; lia].
    pose proof (proj1 (Forall_forall _ _) Ht _ (nth_error_In _ _ N)) as [Hn Hl].
    cbn [fst snd] in Hn, Hl.
    exists (nth lab (map snd labels_map) "" :: titles). split.
    + cbn [plot_samples]. rewrite N, (dict_get_nth lab Hl).
      unfold view_dims at 1. rewrite Hn. cbn [lift cbind numel fold_right].
      replace (Nat.eqb 784 (28 * (28 * 1))) with true by reflexivity.
      rewrite E. reflexivity.
    + constructor; [|exact F]. exists img, lab. split; [exact N|reflexivity].
Qed.

End Extras.

(** * Runs of the claims on the executable instance *)

Open Scope list_scope.

(** The training notebook on a fresh GPU kernel, then the testing
    notebook on the files it leaves. *)
Lemma weights_round_trip_witness :
  torch_use_gpu gpu_kernel = Ok (tt, nb1_final) /\
  exists l s2,
    torch_test_model (fresh_kernel (fs nb1_final) (cuda_avail nb1_final)) = Ok (l, s2) /\
    parameters (net s2) = parameters (net nb1_final).
Proof.
  assert (E : torch_use_gpu gpu_kernel = Ok (tt, nb1_final)) by (vm_compute; reflexivity).
  split; [exact E | exact (weights_round_trip gpu_kernel nb1_final E)].
Defined.

(** The weights file alone is not enough for the testing notebook: it also
    reads the test split of FashionMNIST under [./data], which only the
    training notebook downloads. *)
Lemma weights_file_not_only_artifact :
  torch_use_gpu gpu_kernel = Ok (tt, nb1_final) /\
  assoc weights_path (only_weights (fs nb1_final)) = assoc weights_path (fs nb1_final) /\
  torch_test_model (fresh_kernel (only_weights (fs nb1_final)) true) =
    Err (DatasetNotFound "./data").
Proof. split; [|split]; vm_compute; reflexivity. Qed.

Lemma training_and_evaluation_order_witness :
  train batch_size1 CPU demo_loader 1 cpu_kernel = Ok (tt, final_state cpu_kernel train_run) /\
  test batch_size1 CPU demo_loader cpu_kernel = Ok (tt, final_state cpu_kernel test_run) /\
  log (final_state cpu_kernel train_run) =
    log cpu_kernel ++ [EvTrainMode; EvPrint (PDevice CPU)] ++
    List.concat (repeat (train_events CPU (map tdev (parameters (net cpu_kernel))))
                   (List.length (batches demo_loader))) /\
  exists a c,
    log (final_state cpu_kernel test_run) =
      log cpu_kernel ++ [EvEvalMode; EvNoGrad false] ++
      List.concat (repeat (test_events CPU (map tdev (parameters (net cpu_kernel))) false)
                     (List.length (batches demo_loader))) ++
      [EvNoGrad (grad_enabled cpu_kernel);
       EvPrint (PTestReport a c (dataset_len demo_loader))].
Proof.
  assert (E1 : train batch_size1 CPU demo_loader 1 cpu_kernel = Ok (tt, final_state cpu_kernel train_run))
    by (vm_compute; reflexivity).
  assert (E2 : test batch_size1 CPU demo_loader cpu_kernel = Ok (tt, final_state cpu_kernel test_run))
    by (vm_compute; reflexivity).
  split; [exact E1|]. split; [exact E2|].
  exact (training_and_evaluation_order batch_size1 CPU demo_loader 1 cpu_kernel tt
           (final_state cpu_kernel train_run) demo_loader cpu_kernel tt
           (final_state cpu_kernel test_run) E1 E2).
Defined.

(** A kernel without accelerator, a server without weights file and a
    badly shaped image. *)
Lemma unhandled_errors_witness :
  assoc weights_path (fs gpu_kernel) = None /\
  cuda_avail cpu_kernel = false /\
  forward 1 (net gpu_kernel) bad_image = Err ShapeMismatchError /\
  torch_test_model gpu_kernel = Err (FileNotFoundError weights_path) /\
  torch_use_gpu cpu_kernel = Err NoCudaRuntimeError /\
  tensor_cuda blank_image cpu_kernel = Err NoCudaRuntimeError /\
  cuda_IntTensor [30; 40; 50] (CUDA 0) cpu_kernel = Err NoCudaRuntimeError /\
  bind (call_model 1 bad_image) (fun _ => ret tt) gpu_kernel = Err ShapeMismatchError.
Proof.
  assert (H1 : assoc weights_path (fs gpu_kernel) = None) by reflexivity.
  assert (H2 : cuda_avail cpu_kernel = false) by reflexivity.
  assert (H3 : forward 1 (net gpu_kernel) bad_image = Err ShapeMismatchError)
    by (vm_compute; reflexivity).
  split; [exact H1|]. split; [exact H2|]. split; [exact H3|].
  exact (unhandled_errors (fs gpu_kernel) true cpu_kernel blank_image [30; 40; 50]
           (CUDA 0) gpu_kernel 1 bad_image ShapeMismatchError (fun _ => ret tt) H1 H2 H3).
Defined.

Lemma device_consistency_witness :
  torch_use_gpu gpu_kernel = Ok (tt, nb1_final) /\
  torch_device (device_string (cuda_avail gpu_kernel)) = CUDA 0 /\
  on_dev (CUDA 0) (net nb1_final) /\
  (exists new, log nb1_final = log gpu_kernel ++ new /\
               Forall (consistent_ev (CUDA 0)) new) /\
  (forall s0 e, torch_use_gpu (R := nat) s0 = Err e -> e <> DeviceMismatchError).
Proof.
  assert (E : torch_use_gpu gpu_kernel = Ok (tt, nb1_final)) by (vm_compute; reflexivity).
  split; [exact E | exact (device_consistency gpu_kernel nb1_final E)].
Defined.

Lemma five_epochs_witness :
  0 < batch_size1 /\ kernel_ok CPU cpu_kernel /\ grad_enabled cpu_kernel = true /\
  Forall (batch_ok batch_size1) (batches demo_loader) /\
  dataset_len demo_loader <> 0 /\
  exists s', epoch_loop batch_size1 CPU demo_loader demo_loader cpu_kernel = Ok (tt, s') /\
    exists new, log s' = log cpu_kernel ++ new /\
      marks new = flat_map (epoch_marks (List.length (batches demo_loader))
                                        (List.length (batches demo_loader))) [1; 2; 3; 4; 5].
Proof.
  assert (H1 : 0 < batch_size1) by (unfold batch_size1; lia).
  assert (H2 : kernel_ok CPU cpu_kernel)
    by (split; [reflexivity|split; [reflexivity|discriminate]]).
  assert (H3 : grad_enabled cpu_kernel = true) by reflexivity.
  assert (H4 : Forall (batch_ok batch_size1) (batches demo_loader)).
  { apply Forall_forall. intros b Hb. vm_compute in Hb. destruct Hb as [<-|[]].
    split; [apply Nat.eqb_eq; vm_compute; reflexivity|].
    split; [reflexivity|]. split; [reflexivity|]. vm_compute. reflexivity. }
  assert (H5 : dataset_len demo_loader <> 0) by discriminate.
  split; [exact H1|]. split; [exact H2|]. split; [exact H3|]. split; [exact H4|].
  split; [exact H5|].
  exact (five_epochs batch_size1 CPU demo_loader demo_loader cpu_kernel H1 H2 H3 H4 H4 H5).
Defined.

(** [get_probs] on the fresh model (on the CPU) with [device = cuda:0]
    moves the parameters, hence changes them. *)
Lemma get_probs_moves_parameters :
  match get_probs blank_image label3 (CUDA 0) gpu_kernel with
  | Ok (_, s') => parameters (net s') <> parameters (net gpu_kernel)
  | Err _ => False
  end.
Proof. vm_compute. intro Hx. discriminate Hx. Qed.

Lemma evaluation_parameters_witness :
  get_probs blank_image label3 CPU cpu_kernel = Ok ((probs_p, probs_g), probs_s) /\ on_dev CPU (net cpu_kernel) /\
  parameters (net probs_s) = parameters (net cpu_kernel).
Proof.
  assert (E : get_probs blank_image label3 CPU cpu_kernel = Ok ((probs_p, probs_g), probs_s)) by (vm_compute; reflexivity).
  assert (Hd : on_dev CPU (net cpu_kernel)) by reflexivity.
  split; [exact E|]. split; [exact Hd|].
  exact (proj2 (proj2 evaluation_parameters) blank_image label3 CPU cpu_kernel
           (probs_p, probs_g) probs_s Hd E).
Defined.

Lemma get_probs_result_witness :
  get_probs blank_image label3 CPU cpu_kernel = Ok ((probs_p, probs_g), probs_s) /\
  (exists o, forward batch_size2 (net_to CPU (net cpu_kernel)) (tensor_to CPU blank_image) = Ok o /\
             probs_p = squeeze o) /\
  index probs_p (tensor_to CPU label3) = Ok probs_g.
Proof.
  assert (E : get_probs blank_image label3 CPU cpu_kernel = Ok ((probs_p, probs_g), probs_s)) by (vm_compute; reflexivity).
  split; [exact E | exact (get_probs_result blank_image label3 CPU cpu_kernel
                              probs_p probs_g probs_s E)].
Defined.

(** * Runs of the further properties on the executable instance *)


Lemma DataLoader_image_shapes_witness :
  DataLoader (fashion_mnist false) 30 cpu_kernel = Ok (demo_loader30, cpu_kernel) /\
  Forall (fun p => tshape (fst p) = [1; 28; 28]) (fashion_mnist false) /\
  Forall (fun b => tshape (fst b) = tshape (snd b) ++ [1; 28; 28]) (batches demo_loader30).
Proof.
  assert (E : DataLoader (fashion_mnist false) 30 cpu_kernel = Ok (demo_loader30, cpu_kernel))
    by (vm_compute; reflexivity).
  assert (F : Forall (fun p => tshape (fst p) = [1; 28; 28]) (fashion_mnist false)).
  { apply Forall_forall. intros p Hp. apply repeat_spec in Hp. subst p. reflexivity. }
  split; [exact E|]. split; [exact F|].
  exact (DataLoader_image_shapes (fashion_mnist false) 30 [1; 28; 28] cpu_kernel
           demo_loader30 cpu_kernel E F).
Defined.

Lemma forward_input_check_witness :
  0 < 1 /\ net_shapes_ok (net cpu_kernel) /\ on_dev (tdev blank_image) (net cpu_kernel) /\
  (numel (tshape blank_image) = 1 * 784 ->
     exists y, forward 1 (net cpu_kernel) blank_image = Ok y /\ tshape y = [1; 10] /\
               tdev y = tdev blank_image) /\
  (numel (tshape blank_image) <> 1 * 784 ->
     forward 1 (net cpu_kernel) blank_image = Err ShapeMismatchError).
Proof.
  assert (H1 : 0 < 1) by lia.
  assert (H2 : net_shapes_ok (net cpu_kernel)) by reflexivity.
  assert (H3 : on_dev (tdev blank_image) (net cpu_kernel)) by reflexivity.
  split; [exact H1|]. split; [exact H2|]. split; [exact H3|].
  exact (forward_input_check 1 (net cpu_kernel) blank_image H1 H2 H3).
Defined.

Lemma forward_output_witness :
  net_shapes_ok (net cpu_kernel) /\
  forward 1 (net cpu_kernel) blank_image = Ok forward_out /\
  numel (tshape blank_image) = 1 * 784 /\ tshape forward_out = [1; 10] /\
  tdev forward_out = tdev blank_image /\ List.length (tdata forward_out) <= 1 * 10.
Proof.
  assert (H1 : net_shapes_ok (net cpu_kernel)) by reflexivity.
  assert (H2 : forward 1 (net cpu_kernel) blank_image = Ok forward_out)
    by (vm_compute; reflexivity).
  split; [exact H1|]. split; [exact H2|].
  exact (forward_output 1 (net cpu_kernel) blank_image forward_out H1 H2).
Defined.

Lemma partial_last_batch_witness :
  DataLoader (fashion_mnist false) 30 cpu_kernel = Ok (demo_loader30, cpu_kernel) /\
  Forall sample_ok (fashion_mnist false) /\
  List.length (fashion_mnist false) mod 30 <> 0 /\
  kernel_ok CPU cpu_kernel /\ grad_enabled cpu_kernel = true /\
  train 30 CPU demo_loader30 1 cpu_kernel = Err ShapeMismatchError /\
  test 30 CPU demo_loader30 cpu_kernel = Err ShapeMismatchError.
Proof.
  assert (H1 : DataLoader (fashion_mnist false) 30 cpu_kernel = Ok (demo_loader30, cpu_kernel))
    by (vm_compute; reflexivity).
  assert (H2 : Forall sample_ok (fashion_mnist false)).
  { apply Forall_forall. intros p Hp. apply repeat_spec in Hp. subst p.
    split; [reflexivity | cbn; lia]. }
  assert (H3 : List.length (fashion_mnist false) mod 30 <> 0) by (vm_compute; discriminate).
  assert (H4 : kernel_ok CPU cpu_kernel)
    by (split; [reflexivity|split; [reflexivity|discriminate]]).
  assert (H5 : grad_enabled cpu_kernel = true) by reflexivity.
  split; [exact H1|]. split; [exact H2|]. split; [exact H3|]. split; [exact H4|].
  split; [exact H5|].
  exact (partial_last_batch (fashion_mnist false) 30 CPU 1 cpu_kernel demo_loader30 cpu_kernel
           cpu_kernel H1 H2 H3 H4 H5).
Defined.

Lemma whole_batches_run_witness :
  DataLoader (fashion_mnist false) batch_size1 cpu_kernel = Ok (demo_loader, cpu_kernel) /\
  Forall sample_ok (fashion_mnist false) /\
  List.length (fashion_mnist false) mod batch_size1 = 0 /\ fashion_mnist false <> [] /\
  kernel_ok CPU cpu_kernel /\ grad_enabled cpu_kernel = true /\
  (exists s', train batch_size1 CPU demo_loader 1 cpu_kernel = Ok (tt, s')) /\
  (exists s', test batch_size1 CPU demo_loader cpu_kernel = Ok (tt, s')).
Proof.
  assert (H1 : DataLoader (fashion_mnist false) batch_size1 cpu_kernel = Ok (demo_loader, cpu_kernel))
    by (vm_compute; reflexivity).
  assert (H2 : Forall sample_ok (fashion_mnist false)).
  { apply Forall_forall. intros p Hp. apply repeat_spec in Hp. subst p.
    split; [reflexivity | cbn; lia]. }
  assert (H3 : List.length (fashion_mnist false) mod batch_size1 = 0) by (vm_compute; reflexivity).
  assert (H4 : fashion_mnist (R := nat) false <> []) by (vm_compute; discriminate).
  assert (H5 : kernel_ok CPU cpu_kernel)
    by (split; [reflexivity|split; [reflexivity|discriminate]]).
  assert (H6 : grad_enabled cpu_kernel = true) by reflexivity.
  split; [exact H1|]. split; [exact H2|]. split; [exact H3|]. split; [exact H4|].
  split; [exact H5|]. split; [exact H6|].
  exact (whole_batches_run (fashion_mnist false) batch_size1 CPU 1 cpu_kernel demo_loader
           cpu_kernel cpu_kernel H1 H2 H3 H4 H5 H6).
Defined.

Lemma test_report_bound_witness :
  DataLoader (fashion_mnist false) batch_size1 cpu_kernel = Ok (demo_loader, cpu_kernel) /\
  test batch_size1 CPU demo_loader cpu_kernel = Ok (tt, final_state cpu_kernel test_run) /\
  exists pre v c,
    log (final_state cpu_kernel test_run) =
      pre ++ [EvPrint (PTestReport v c (List.length (fashion_mnist false)))] /\
    c <= List.length (fashion_mnist false).
Proof.
  assert (H1 : DataLoader (fashion_mnist false) batch_size1 cpu_kernel = Ok (demo_loader, cpu_kernel))
    by (vm_compute; reflexivity).
  assert (H2 : test batch_size1 CPU demo_loader cpu_kernel = Ok (tt, final_state cpu_kernel test_run))
    by (vm_compute; reflexivity).
  split; [exact H1|]. split; [exact H2|].
  exact (test_report_bound (fashion_mnist false) batch_size1 cpu_kernel demo_loader cpu_kernel
           CPU cpu_kernel tt (final_state cpu_kernel test_run) H1 H2).
Defined.

Lemma train_step_update_witness :
  train_step batch_size1 CPU (fst demo_batch, snd demo_batch) cpu_kernel =
    Ok (tt, final_state cpu_kernel step_run) /\
  let g := nll_grad batch_size1 (net cpu_kernel) (tensor_to CPU (fst demo_batch))
                    (tensor_to CPU (snd demo_batch)) in
  let r := step_all (opt cpu_kernel) (map tdata (parameters (net cpu_kernel))) g in
  grads (final_state cpu_kernel step_run) = Some g /\
  opt (final_state cpu_kernel step_run) = fst r /\
  net (final_state cpu_kernel step_run) = set_params_data (net cpu_kernel) (snd r).
Proof.
  assert (E : train_step batch_size1 CPU (fst demo_batch, snd demo_batch) cpu_kernel =
                Ok (tt, final_state cpu_kernel step_run)) by (vm_compute; reflexivity).
  split; [exact E|].
  exact (train_step_update batch_size1 CPU (fst demo_batch) (snd demo_batch) cpu_kernel tt
           (final_state cpu_kernel step_run) E).
Defined.


Lemma save_load_round_trip_witness :
  torch_save (state_dict (net cpu_kernel)) weights_path cpu_kernel =
    Ok (tt, final_state cpu_kernel save_run) /\
  (existsb (fun p => is_cuda (tdev (snd p))) (state_dict (net cpu_kernel)) &&
     negb (cuda_avail cpu_kernel) = false ->
   exists s2, torch_load weights_path (final_state cpu_kernel save_run) =
                Ok (state_dict (net cpu_kernel), s2)) /\
  (existsb (fun p => is_cuda (tdev (snd p))) (state_dict (net cpu_kernel)) &&
     negb (cuda_avail cpu_kernel) = true ->
   torch_load weights_path (final_state cpu_kernel save_run) = Err CudaDeserializeError).
Proof.
  assert (E : torch_save (state_dict (net cpu_kernel)) weights_path cpu_kernel =
                Ok (tt, final_state cpu_kernel save_run)) by (vm_compute; reflexivity).
  split; [exact E|].
  exact (save_load_round_trip (state_dict (net cpu_kernel)) weights_path cpu_kernel tt
           (final_state cpu_kernel save_run) E).
Defined.



Lemma cell15_no_key_error_witness :
  net_shapes_ok (net cpu_kernel) /\
  cell15 [(test_image, mkTensor [12] [1] CPU)] CPU cpu_kernel <> @CErr _ (KeyError 12).
Proof.
  assert (H : net_shapes_ok (net cpu_kernel)) by reflexivity.
  split; [exact H | exact (cell15_no_key_error [(test_image, mkTensor [12] [1] CPU)] CPU
                             cpu_kernel 12 H)].
Defined.


Lemma plot_samples_titles_witness :
  Forall (fun p => numel (tshape (fst p)) = 784 /\ snd p < 10) (fashion_mnist false) /\
  Forall (fun i => i < List.length (fashion_mnist false)) [0; 7; 13; 21; 42; 55; 68; 81; 99] /\
  exists titles, plot_samples (fashion_mnist false) [0; 7; 13; 21; 42; 55; 68; 81; 99] =
                 @COk _ titles /\
    Forall2 (fun i t => exists img lab, nth_error (fashion_mnist false) i = Some (img, lab) /\
                          t = nth lab (map snd labels_map) "")
            [0; 7; 13; 21; 42; 55; 68; 81; 99] titles.
Proof.
  assert (H1 : Forall (fun p => numel (tshape (fst p)) = 784 /\ snd p < 10) (fashion_mnist false)).
  { apply Forall_forall. intros p Hp. apply repeat_spec in Hp. subst p.
    split; [reflexivity | cbn; lia]. }
  assert (H2 : Forall (fun i => i < List.length (fashion_mnist (R := nat) false))
                 [0; 7; 13; 21; 42; 55; 68; 81; 99]).
  { repeat constructor; apply Nat.ltb_lt; vm_compute; reflexivity. }
  split; [exact H1|]. split; [exact H2|].
  exact (plot_samples_titles (fashion_mnist false) [0; 7; 13; 21; 42; 55; 68; 81; 99] H1 H2).
Defined.
